(** * container-tag-exists: the registry client of [pkg/registry.go]

    A shallow embedding of [RegistryClient] and its methods, and the
    properties of the tag-existence check and of the credential cascade.

    Go strings are byte sequences and are modelled by [string]; Go's [int]
    status code is a [Z] (it is only compared and printed, never computed
    with).  A Go result pair [(v, err)] is a pair whose second component is
    [None] for [nil].  The process environment is a finite map, so that an
    unset variable and a variable set to the empty string are different
    environments.  Every call of [os.Getenv] and of [HttpClient.Do] is
    appended to a trace, which is the state threaded through the methods. *)

From Stdlib Require Import ZArith Ascii String List.
From stdpp Require Import base strings pretty gmap.

Open Scope Z_scope.

(** ** Values of the Go runtime and libraries *)

(** A Go [error], by the package that made it. *)
Inductive error : Type :=
| Errorf (msg : string)      (* fmt.Errorf *)
| NetError (msg : string)    (* net/http, net/url, io *)
| JSONError (msg : string).  (* encoding/json *)

(** The outcome [(v, nil)] or [(nil, err)] of a library call. *)
Inductive outcome (A : Type) : Type :=
| Ok (a : A)
| Err (e : error).
Arguments Ok {A} a.
Arguments Err {A} e.

Inductive Method : Type := MethodGet | MethodHead.

(** [http.Header] is a [map[string][]string]. *)
Record Request : Type := {
  ReqMethod : Method;
  ReqURL : string;
  ReqHeader : gmap string (list string)
}.

(** [Header.Add(key, value)] appends to the values of the key. *)
Definition Header_Add (req : Request) (key value : string) : Request :=
  {| ReqMethod := ReqMethod req;
     ReqURL := ReqURL req;
     ReqHeader := <[key := default [] (ReqHeader req !! key) ++ [value]]> (ReqHeader req) |}.

(** A response: its status code, and what [io.ReadAll] gives on its body. *)
Record Response : Type := {
  StatusCode : Z;
  Body : outcome string
}.

Definition StatusOK : Z := 200.
Definition StatusNotFound : Z := 404.

(** [*http.Client], taken to be non-nil: [Do] answers a request with a
    response or with an error, and the answer may depend on the requests that
    were sent before it.  One call of [Do] counts as one request, whatever
    the client does inside it. *)
Record Client : Type := {
  Do : list Request -> Request -> outcome Response
}.

(** What the program takes from its platform: the environment of the process,
    the URLs [http.NewRequest] refuses, and [json.Unmarshal] into a
    [tokenResponse], which gives the [Token] field and the error. *)
Record Platform : Type := {
  Environ : gmap string string;
  url_Parse : string -> option error;
  Unmarshal_tokenResponse : string -> string * option error
}.

Definition with_Environ (p : Platform) (e : gmap string string) : Platform :=
  {| Environ := e;
     url_Parse := url_Parse p;
     Unmarshal_tokenResponse := Unmarshal_tokenResponse p |}.

(** ** base64.StdEncoding.EncodeToString (RFC 4648, with padding) *)

Module base64.

Definition encodeStd : string :=
  "ABCDEFGHIJKLMNOPQRSTUVWXYZabcdefghijklmnopqrstuvwxyz0123456789+/".

Definition byte_val (c : ascii) : Z := Z.of_N (N_of_ascii c).

(** [enc.encode[v & 0x3F]] *)
Definition encode_char (v : Z) : ascii :=
  match String.get (Z.to_nat (Z.land v 63)) encodeStd with
  | Some c => c
  | None => "="%char
  end.

Fixpoint EncodeToString (src : string) : string :=
  match src with
  | EmptyString => ""
  | String a EmptyString =>
      let val := Z.shiftl (byte_val a) 16 in
      String (encode_char (Z.shiftr val 18))
        (String (encode_char (Z.shiftr val 12)) "==")
  | String a (String b EmptyString) =>
      let val := Z.lor (Z.shiftl (byte_val a) 16) (Z.shiftl (byte_val b) 8) in
      String (encode_char (Z.shiftr val 18))
        (String (encode_char (Z.shiftr val 12))
          (String (encode_char (Z.shiftr val 6)) "="))
  | String a (String b (String c rest)) =>
      let val := Z.lor (Z.lor (Z.shiftl (byte_val a) 16) (Z.shiftl (byte_val b) 8))
                       (byte_val c) in
      String (encode_char (Z.shiftr val 18))
        (String (encode_char (Z.shiftr val 12))
          (String (encode_char (Z.shiftr val 6))
            (String (encode_char val) (EncodeToString rest))))
  end.

End base64.

(** ** The trace of calls to the outside, and the monad that threads it *)

Inductive Event : Type :=
| EvGetenv (key : string)    (* os.Getenv(key) *)
| EvDo (req : Request).      (* HttpClient.Do(req) *)

Definition Trace : Type := list Event.

(** The requests sent so far, oldest first. *)
Fixpoint requests (t : Trace) : list Request :=
  match t with
  | [] => []
  | EvGetenv _ :: t' => requests t'
  | EvDo req :: t' => req :: requests t'
  end.

(** A method is a function of the trace so far, which gives its results and
    the trace extended by the calls it made; binding is stdpp's [x ← m; k]. *)
Definition M (A : Type) : Type := Trace -> A * Trace.

Definition ret {A : Type} (a : A) : M A := fun t => (a, t).

#[export] Instance M_bind : MBind M :=
  fun A B (k : A -> M B) (m : M A) t => let (a, t') := m t in k a t'.

(** ** The platform calls *)

Section Registry.

Variable p : Platform.

(** [os.Getenv]: the value of the variable, empty when it is unset. *)
Definition Getenv (key : string) : M string :=
  fun t => (default "" (Environ p !! key), t ++ [EvGetenv key]).

(** [http.NewRequest(method, url, nil)]: the methods used here are valid, so
    it fails only on a URL that does not parse. *)
Definition NewRequest (method : Method) (url : string) : outcome Request :=
  match url_Parse p url with
  | Some err => Err err
  | None => Ok {| ReqMethod := method; ReqURL := url; ReqHeader := ∅ |}
  end.

(** [c.Do(req)] *)
Definition Client_Do (c : Client) (req : Request) : M (outcome Response) :=
  fun t => (Do c (requests t) req, t ++ [EvDo req]).

(** ** pkg/registry.go *)

Definition authAPI (registryURL service imagePath : string) : string :=
  "https://" +:+ registryURL +:+ "/v2/auth?service=" +:+ service
    +:+ "&scope=repository:" +:+ imagePath +:+ ":pull".

Definition manifestAPI (registryURL imagePath tag : string) : string :=
  "https://" +:+ registryURL +:+ "/v2/" +:+ imagePath +:+ "/manifests/" +:+ tag.

Record RegistryClient : Type := {
  RegistryName : string;
  RegistryURL : string;
  ImagePath : string;
  HttpClient : Client
}.

Variable r : RegistryClient.

Definition retrieve (method : Method) (endpoint auth : string)
  : M (Z * string * option error) :=
  match NewRequest method endpoint with
  | Err err => ret (-1, "", Some err)
  | Ok req =>
      let req := Header_Add req "Authorization" auth in
      res ← Client_Do (HttpClient r) req;
      match res with
      | Err err => ret (-1, "", Some err)
      | Ok res =>
          match Body res with
          | Err err => ret (-1, "", Some err)
          | Ok b => ret (StatusCode res, b, None)
          end
      end
  end.

Definition retrieveBearerToken (auth : string) : M (string * option error) :=
  let endpoint := authAPI (RegistryURL r) (RegistryURL r) (ImagePath r) in
  '(status, res, err) ← retrieve MethodGet endpoint ("Basic " +:+ auth);
  match err with
  | Some err => ret ("", Some err)
  | None =>
      if negb (status =? StatusOK) then
        ret ("", Some (Errorf ("unexpected response code " +:+ pretty status)))
      else
        match Unmarshal_tokenResponse p res with
        | (_, Some err) => ret ("", Some err)
        | (token, None) => ret (token, None)
        end
  end.

Definition checkManifestForTag (bearer tag : string) : M (bool * option error) :=
  let endpoint := manifestAPI (RegistryURL r) (ImagePath r) tag in
  let auth := if String.eqb bearer "" then "" else "Bearer " +:+ bearer in
  '(status, _, err) ← retrieve MethodHead endpoint auth;
  match err with
  | Some err => ret (false, Some err)
  | None =>
      if status =? StatusOK then ret (true, None)
      else if status =? StatusNotFound then ret (false, None)
      else ret (false, Some (Errorf ("unexpected response registry API: " +:+ pretty status)))
  end.

Definition getAuthTokenFromCredentials : M (string * option error) :=
  let userEnvName := RegistryName r +:+ "_USER" in
  let passEnvName := RegistryName r +:+ "_PASSWORD" in
  user ← Getenv userEnvName;
  pass ← Getenv passEnvName;
  if String.eqb user "" || String.eqb pass "" then
    ret ("", Some (Errorf ("could not get credentials for " +:+ RegistryName r)))
  else
    let b64 := base64.EncodeToString (user +:+ ":" +:+ pass) in
    ret (b64, None).

Definition getBearerTokenFromAuthToken : M (string * option error) :=
  let authTokenEnvName := RegistryName r +:+ "_AUTH" in
  authToken ← Getenv authTokenEnvName;
  if String.eqb authToken "" then
    '(t, err) ← getAuthTokenFromCredentials;
    match err with
    | Some err => ret ("", Some err)
    | None =>
        if String.eqb t "" then
          ret ("", Some (Errorf ("could not get auth token for " +:+ RegistryName r)))
        else retrieveBearerToken t
    end
  else retrieveBearerToken authToken.

Definition getBearerToken : M (string * option error) :=
  let bearerTokenEnvName := RegistryName r +:+ "_TOKEN" in
  bearerToken ← Getenv bearerTokenEnvName;
  if negb (String.eqb bearerToken "") then ret (bearerToken, None)
  else
    '(bearerToken, err) ← getBearerTokenFromAuthToken;
    let finish (bearerToken : string) : M (string * option error) :=
      if negb (String.eqb bearerToken "") then ret (bearerToken, None)
      else ret ("", Some (Errorf ("could not get a bearer token for " +:+ RegistryName r)))
    in
    match err with
    | Some err =>
        if negb (String.eqb (RegistryName r) "GHCR_IO") then ret ("", Some err)
        else
          github_token ← Getenv "GITHUB_TOKEN";
          if String.eqb github_token "" then ret ("", Some err)
          else finish (base64.EncodeToString github_token)
    | None => finish bearerToken
    end.

Definition IsTagExist (tag : string) : M (bool * option error) :=
  '(found, err) ← checkManifestForTag "" tag;
  match err with
  | None => ret (found, None)
  | Some _ =>
      '(bearerToken, err) ← getBearerToken;
      match err with
      | Some err => ret (false, Some err)
      | None => checkManifestForTag bearerToken tag
      end
  end.

End Registry.

(** ** Vocabulary of the statements *)

(** The request [retrieve] builds: one [Authorization] header and no other. *)
Definition mkRequest (method : Method) (url auth : string) : Request :=
  {| ReqMethod := method; ReqURL := url; ReqHeader := {[ "Authorization" := [auth] ]} |}.

Definition manifest_url (r : RegistryClient) (tag : string) : string :=
  "https://" +:+ RegistryURL r +:+ "/v2/" +:+ ImagePath r +:+ "/manifests/" +:+ tag.

(** The HEAD request of the manifest check with the given [Authorization]. *)
Definition manifest_request (r : RegistryClient) (tag auth : string) : Request :=
  mkRequest MethodHead (manifest_url r tag) auth.

Definition exchange_url (r : RegistryClient) : string :=
  "https://" +:+ RegistryURL r +:+ "/v2/auth?service=" +:+ RegistryURL r
    +:+ "&scope=repository:" +:+ ImagePath r +:+ ":pull".

(** The GET request of the token exchange for the given auth token. *)
Definition exchange_request (r : RegistryClient) (authToken : string) : Request :=
  mkRequest MethodGet (exchange_url r) ("Basic " +:+ authToken).

(** A variable supplies a value when it is set to a non-empty string; it
    supplies nothing when it is unset or set to the empty string. *)
Definition supplies (p : Platform) (key value : string) : Prop :=
  Environ p !! key = Some value /\ value <> "".

Definition supplies_nothing (p : Platform) (key : string) : Prop :=
  Environ p !! key = None \/ Environ p !! key = Some "".

(** The requests of [t'] that were sent after [t]. *)
Definition sent_since (t t' : Trace) : list Request :=
  drop (length (requests t)) (requests t').

Definition is_get (req : Request) : bool :=
  match ReqMethod req with MethodGet => true | MethodHead => false end.

Definition is_head (req : Request) : bool :=
  match ReqMethod req with MethodGet => false | MethodHead => true end.

(** [sends m P]: from every trace, [m] only appends to the trace, and the
    requests among what it appends satisfy [P]. *)
Definition sends {A : Type} (m : M A) (P : list Request -> Prop) : Prop :=
  forall t, exists ext, snd (m t) = t ++ ext /\ P (requests ext).

(** At most one request, and it is the given one. *)
Definition at_most (req : Request) (rs : list Request) : Prop :=
  rs = [] \/ rs = [req].

(** The environment variables read so far, oldest first. *)
Fixpoint getenvs (t : Trace) : list string :=
  match t with
  | [] => []
  | EvGetenv key :: t' => key :: getenvs t'
  | EvDo _ :: t' => getenvs t'
  end.

(** The variables read in [t'] after [t]. *)
Definition read_since (t t' : Trace) : list string :=
  drop (length (getenvs t)) (getenvs t').

(** ** A scripted registry, for the examples *)

(** A client that answers its n-th request with the n-th response of a
    script, and refuses the connection afterwards. *)
Definition scripted (script : list (outcome Response)) : Client :=
  {| Do := fun sent _ => nth (length sent) script (Err (NetError "connection refused")) |}.

(** A stand-in for the JSON decoder: the body [{}] has no token field, the
    body [<html>] is not JSON, and any other body is its own token. *)
Definition demo_Unmarshal (body : string) : string * option error :=
  if String.eqb body "{}" then ("", None)
  else if String.eqb body "<html>" then ("", Some (JSONError "invalid character"))
  else (body, None).

Definition demo_platform (env : gmap string string) : Platform :=
  {| Environ := env; url_Parse := fun _ => None; Unmarshal_tokenResponse := demo_Unmarshal |}.

Definition demo_registry (name : string) (script : list (outcome Response)) : RegistryClient :=
  {| RegistryName := name; RegistryURL := "reg.example"; ImagePath := "org/app";
     HttpClient := scripted script |}.

Definition status_only (code : Z) : outcome Response :=
  Ok {| StatusCode := code; Body := Ok "" |}.

Definition with_body (code : Z) (body : string) : outcome Response :=
  Ok {| StatusCode := code; Body := Ok body |}.

Definition refused : outcome Response := Err (NetError "connection refused").

(** * Properties *)

Example base64_u_p : base64.EncodeToString "u:p" = "dTpw".
Proof. reflexivity. Qed.

Example base64_xyz : base64.EncodeToString "xyz" = "eHl6".
Proof. reflexivity. Qed.

Example base64_padding :
  base64.EncodeToString "a" = "YQ==" /\ base64.EncodeToString "ab" = "YWI=" /\
  base64.EncodeToString "user:pass" = "dXNlcjpwYXNz" /\
  base64.EncodeToString "Man is" = "TWFuIGlz".
Proof. repeat split; reflexivity. Qed.

Example pretty_status : pretty (401 : Z) = "401" /\ pretty (-1 : Z) = "-1" /\ pretty (0 : Z) = "0".
Proof. repeat split; reflexivity. Qed.

(** ** The platform calls and [retrieve] *)

Lemma requests_app (t1 t2 : Trace) : requests (t1 ++ t2) = requests t1 ++ requests t2.
Proof.
  induction t1 as [|[key|req] t1 IH]; simpl; [reflexivity | exact IH | now rewrite IH].
Qed.

Lemma Header_Add_fresh (method : Method) (url auth : string) :
  Header_Add {| ReqMethod := method; ReqURL := url; ReqHeader := ∅ |} "Authorization" auth
  = mkRequest method url auth.
Proof.
  unfold Header_Add, mkRequest; simpl. rewrite lookup_empty; simpl.
  now rewrite insert_empty.
Qed.

(** [retrieve] sends nothing when the URL does not parse, and otherwise
    sends one request and reports the status and body it gets, or the error
    of the transport or of reading the body. *)
Lemma retrieve_eq p r method url auth t :
  retrieve p r method url auth t =
  match url_Parse p url with
  | Some err => ((-1, "", Some err), t)
  | None =>
      (match Do (HttpClient r) (requests t) (mkRequest method url auth) with
       | Err err => (-1, "", Some err)
       | Ok res =>
           match Body res with
           | Err err => (-1, "", Some err)
           | Ok b => (StatusCode res, b, None)
           end
       end, t ++ [EvDo (mkRequest method url auth)])
  end.
Proof.
  unfold retrieve, NewRequest. destruct (url_Parse p url) as [err|]; [reflexivity|].
  rewrite Header_Add_fresh. unfold mbind, M_bind, Client_Do, ret.
  destruct (Do _ _ _) as [res|err]; [|reflexivity].
  destruct (Body res); reflexivity.
Qed.

Lemma Getenv_eq p key t :
  Getenv p key t = (default "" (Environ p !! key), t ++ [EvGetenv key]).
Proof. reflexivity. Qed.

Lemma Getenv_supplies p key value :
  supplies p key value -> default "" (Environ p !! key) = value.
Proof. intros [-> _]. reflexivity. Qed.

Lemma Getenv_supplies_nothing p key :
  supplies_nothing p key <-> default "" (Environ p !! key) = "".
Proof.
  unfold supplies_nothing. destruct (Environ p !! key) as [v|]; simpl.
  - split; [intros [H|H]; congruence | intros ->; now right].
  - split; [reflexivity | now left].
Qed.

(** Every variable either supplies a value or supplies nothing. *)
Lemma supplies_dec p key :
  {value | supplies p key value} + {supplies_nothing p key}.
Proof.
  unfold supplies, supplies_nothing.
  destruct (Environ p !! key) as [v|]; [|right; now left].
  destruct (String.eqb_spec v ""); [right; right; congruence | left; now exists v].
Qed.

Lemma eqb_empty_false (s : string) : s <> "" -> String.eqb s "" = false.
Proof. intros H. now apply String.eqb_neq. Qed.

(** ** The manifest check *)

Lemma checkManifestForTag_eq p r bearer tag t :
  checkManifestForTag p r bearer tag t =
  let '((status, _, err), t') :=
    retrieve p r MethodHead (manifestAPI (RegistryURL r) (ImagePath r) tag)
      (if String.eqb bearer "" then "" else "Bearer " +:+ bearer) t in
  match err with
  | Some err => ((false, Some err), t')
  | None =>
      if status =? 200 then ((true, None), t')
      else if status =? 404 then ((false, None), t')
      else ((false, Some (Errorf ("unexpected response registry API: " +:+ pretty status))), t')
  end.
Proof.
  unfold checkManifestForTag, mbind, M_bind, ret, StatusOK, StatusNotFound. simpl.
  destruct (retrieve _ _ _ _ _ _) as [[[status b] [err|]] t']; [reflexivity|].
  destruct (status =? 200); [reflexivity|]. destruct (status =? 404); reflexivity.
Qed.

(** The manifest check adds to the trace at most its one HEAD request. *)
Lemma checkManifestForTag_trace p r bearer tag t :
  let auth := if String.eqb bearer "" then "" else "Bearer " +:+ bearer in
  snd (checkManifestForTag p r bearer tag t) =
    match url_Parse p (manifest_url r tag) with
    | Some _ => t
    | None => t ++ [EvDo (manifest_request r tag auth)]
    end.
Proof.
  cbv zeta. rewrite checkManifestForTag_eq, retrieve_eq. simpl.
  change (manifestAPI (RegistryURL r) (ImagePath r) tag) with (manifest_url r tag).
  destruct (url_Parse p (manifest_url r tag)); [reflexivity|].
  unfold manifest_request.
  destruct (Do _ _ _) as [res|]; [|reflexivity].
  destruct (Body res); [|reflexivity].
  destruct (StatusCode res =? 200); [reflexivity|].
  destruct (StatusCode res =? 404); reflexivity.
Qed.

(** When the manifest check returns without error it has sent its request
    and was answered 200 (found) or 404 (not found). *)
Lemma checkManifestForTag_ok p r bearer tag t found t1 :
  checkManifestForTag p r bearer tag t = ((found, None), t1) ->
  let req := manifest_request r tag (if String.eqb bearer "" then "" else "Bearer " +:+ bearer) in
  t1 = t ++ [EvDo req] /\
  exists res, Do (HttpClient r) (requests t) req = Ok res /\
    ((StatusCode res = 200 /\ found = true) \/ (StatusCode res = 404 /\ found = false)).
Proof.
  cbv zeta. rewrite checkManifestForTag_eq, retrieve_eq. simpl.
  change (manifestAPI (RegistryURL r) (ImagePath r) tag) with (manifest_url r tag).
  destruct (url_Parse p (manifest_url r tag)); [discriminate|].
  unfold manifest_request.
  destruct (Do _ _ _) as [res|]; [|discriminate].
  destruct (Body res); [|discriminate].
  destruct (Z.eqb_spec (StatusCode res) 200) as [E200|N200].
  { intros [= <- <-]. split; [reflexivity|]. exists res. split; [reflexivity|]. now left. }
  destruct (Z.eqb_spec (StatusCode res) 404) as [E404|N404]; [|discriminate].
  intros [= <- <-]. split; [reflexivity|]. exists res. split; [reflexivity|]. now right.
Qed.

(** ** C1 *)

(** C1. When the anonymous manifest check (empty bearer token) returns without
    error, [IsTagExist] returns the boolean of that check with no error, and
    the only call it has made is the one anonymous HEAD request: no
    environment variable was read for a token, no exchange and no second
    manifest check took place.  The boolean is [true] on a 200 answer and
    [false] on a 404 answer. *)
Theorem IsTagExist_anonymous p r tag t found t1 :
  checkManifestForTag p r "" tag t = ((found, None), t1) ->
  IsTagExist p r tag t = ((found, None), t ++ [EvDo (manifest_request r tag "")]) /\
  exists res,
    Do (HttpClient r) (requests t) (manifest_request r tag "") = Ok res /\
    ((StatusCode res = 200 /\ found = true) \/ (StatusCode res = 404 /\ found = false)).
Proof.
  intros H. destruct (checkManifestForTag_ok _ _ _ _ _ _ _ H) as [Ht1 Hres].
  simpl in Ht1, Hres. split; [|exact Hres].
  unfold IsTagExist, mbind, M_bind. rewrite H. subst t1. reflexivity.
Qed.

Lemma IsTagExist_anonymous_witness :
  IsTagExist (demo_platform ∅) (demo_registry "REG" [status_only 404]) "v1" []
  = ((false, None), [EvDo (manifest_request (demo_registry "REG" [status_only 404]) "v1" "")]).
Proof.
  exact (proj1 (IsTagExist_anonymous (demo_platform ∅) (demo_registry "REG" [status_only 404])
                  "v1" [] false _ eq_refl)).
Defined.

(** ** C2 *)

(** C2. For every bearer token and tag, when the manifest request is answered
    with a response, the check returns [(true, nil)] on status 200,
    [(false, nil)] on status 404, and on every other status [false] with an
    error whose message ends with the status code in decimal. *)
Theorem checkManifestForTag_status p r bearer tag t res body :
  let auth := if String.eqb bearer "" then "" else "Bearer " +:+ bearer in
  let result := fst (checkManifestForTag p r bearer tag t) in
  url_Parse p (manifest_url r tag) = None ->
  Do (HttpClient r) (requests t) (manifest_request r tag auth) = Ok res ->
  Body res = Ok body ->
  (StatusCode res = 200 -> result = (true, None)) /\
  (StatusCode res = 404 -> result = (false, None)) /\
  (StatusCode res <> 200 -> StatusCode res <> 404 ->
   result = (false, Some (Errorf ("unexpected response registry API: "
                                    +:+ pretty (StatusCode res))))).
Proof.
  intros auth result Hurl Hdo Hbody. subst result auth.
  rewrite checkManifestForTag_eq, retrieve_eq. simpl.
  change (manifestAPI (RegistryURL r) (ImagePath r) tag) with (manifest_url r tag).
  rewrite Hurl. unfold manifest_request in Hdo. rewrite Hdo, Hbody.
  repeat split.
  - intros ->. reflexivity.
  - intros ->. reflexivity.
  - intros N200 N404.
    destruct (Z.eqb_spec (StatusCode res) 200); [contradiction|].
    destruct (Z.eqb_spec (StatusCode res) 404); [contradiction|]. reflexivity.
Qed.

Lemma checkManifestForTag_status_witness :
  fst (checkManifestForTag (demo_platform ∅) (demo_registry "REG" [status_only 500]) "abc" "v1" [])
  = (false, Some (Errorf "unexpected response registry API: 500")).
Proof.
  refine (proj2 (proj2 (checkManifestForTag_status (demo_platform ∅)
            (demo_registry "REG" [status_only 500]) "abc" "v1" []
            {| StatusCode := 500; Body := Ok "" |} "" eq_refl eq_refl eq_refl)) _ _);
    simpl; lia.
Defined.

(** ** What each method adds to the trace *)

Lemma sends_checkManifestForTag p r bearer tag :
  sends (checkManifestForTag p r bearer tag)
        (at_most (manifest_request r tag (if String.eqb bearer "" then "" else "Bearer " +:+ bearer))).
Proof.
  intros t. rewrite (checkManifestForTag_trace p r bearer tag t). cbv zeta.
  destruct (url_Parse p (manifest_url r tag)).
  - exists []. split; [now rewrite app_nil_r | now left].
  - eexists. split; [reflexivity | now right].
Qed.

(** ** The token exchange *)

Lemma retrieveBearerToken_eq p r auth t :
  retrieveBearerToken p r auth t =
  match url_Parse p (exchange_url r) with
  | Some err => (("", Some err), t)
  | None =>
      (match Do (HttpClient r) (requests t) (exchange_request r auth) with
       | Err err => ("", Some err)
       | Ok res =>
           match Body res with
           | Err err => ("", Some err)
           | Ok body =>
               if StatusCode res =? 200 then
                 match Unmarshal_tokenResponse p body with
                 | (_, Some err) => ("", Some err)
                 | (token, None) => (token, None)
                 end
               else ("", Some (Errorf ("unexpected response code " +:+ pretty (StatusCode res))))
           end
       end, t ++ [EvDo (exchange_request r auth)])
  end.
Proof.
  unfold retrieveBearerToken, mbind, M_bind. rewrite retrieve_eq.
  change (authAPI (RegistryURL r) (RegistryURL r) (ImagePath r)) with (exchange_url r).
  destruct (url_Parse p (exchange_url r)); [reflexivity|].
  unfold exchange_request, StatusOK, ret.
  destruct (Do _ _ _) as [res|]; [|reflexivity].
  destruct (Body res) as [body|]; [|reflexivity].
  destruct (StatusCode res =? 200); simpl; [|reflexivity].
  destruct (Unmarshal_tokenResponse p body) as [token [err|]]; reflexivity.
Qed.

Lemma sends_retrieveBearerToken p r auth :
  sends (retrieveBearerToken p r auth) (at_most (exchange_request r auth)).
Proof.
  intros t. rewrite retrieveBearerToken_eq. destruct (url_Parse p (exchange_url r)).
  - exists []. split; [now rewrite app_nil_r | now left].
  - eexists. split; [reflexivity | now right].
Qed.

(** ** The credential cascade *)

Lemma getAuthTokenFromCredentials_eq p r t :
  let user := default "" (Environ p !! (RegistryName r +:+ "_USER")) in
  let pass := default "" (Environ p !! (RegistryName r +:+ "_PASSWORD")) in
  getAuthTokenFromCredentials p r t =
  (if String.eqb user "" || String.eqb pass "" then
     ("", Some (Errorf ("could not get credentials for " +:+ RegistryName r)))
   else (base64.EncodeToString (user +:+ ":" +:+ pass), None),
   t ++ [EvGetenv (RegistryName r +:+ "_USER"); EvGetenv (RegistryName r +:+ "_PASSWORD")]).
Proof.
  cbv zeta. unfold getAuthTokenFromCredentials, mbind, M_bind, Getenv, ret.
  rewrite <- app_assoc. simpl.
  destruct (_ || _); reflexivity.
Qed.

(** A base64 encoding is empty only for the empty input. *)
Lemma EncodeToString_empty (s : string) : base64.EncodeToString s = "" -> s = "".
Proof. destruct s as [|a [|b [|c s]]]; simpl; [reflexivity | discriminate..]. Qed.

Lemma append_empty (s1 s2 : string) : s1 +:+ s2 = "" -> s1 = "" /\ s2 = "".
Proof. destruct s1; simpl; [auto | discriminate]. Qed.

Lemma getBearerTokenFromAuthToken_eq p r t :
  let name := RegistryName r in
  let authToken := default "" (Environ p !! (name +:+ "_AUTH")) in
  let user := default "" (Environ p !! (name +:+ "_USER")) in
  let pass := default "" (Environ p !! (name +:+ "_PASSWORD")) in
  getBearerTokenFromAuthToken p r t =
  if String.eqb authToken "" then
    if String.eqb user "" || String.eqb pass "" then
      (("", Some (Errorf ("could not get credentials for " +:+ name))),
       t ++ [EvGetenv (name +:+ "_AUTH"); EvGetenv (name +:+ "_USER");
             EvGetenv (name +:+ "_PASSWORD")])
    else
      retrieveBearerToken p r (base64.EncodeToString (user +:+ ":" +:+ pass))
        (t ++ [EvGetenv (name +:+ "_AUTH"); EvGetenv (name +:+ "_USER");
               EvGetenv (name +:+ "_PASSWORD")])
  else retrieveBearerToken p r authToken (t ++ [EvGetenv (name +:+ "_AUTH")]).
Proof.
  cbv zeta. unfold getBearerTokenFromAuthToken, mbind, M_bind. rewrite Getenv_eq.
  destruct (String.eqb (default "" _) ""); [|reflexivity].
  rewrite getAuthTokenFromCredentials_eq. cbv zeta. rewrite <- app_assoc. simpl.
  destruct (_ || _) eqn:E; [reflexivity|].
  destruct (String.eqb_spec (base64.EncodeToString
     (default "" (Environ p !! (RegistryName r +:+ "_USER")) +:+ ":" +:+
      default "" (Environ p !! (RegistryName r +:+ "_PASSWORD")))) "") as [Hb|Hb];
    [|reflexivity].
  apply EncodeToString_empty, append_empty in Hb. destruct Hb as [_ Hb]. discriminate.
Qed.

Lemma getBearerToken_eq p r t :
  let name := RegistryName r in
  let envToken := default "" (Environ p !! (name +:+ "_TOKEN")) in
  let github_token := default "" (Environ p !! "GITHUB_TOKEN") in
  getBearerToken p r t =
  if String.eqb envToken "" then
    let '((bearerToken, err), t2) :=
      getBearerTokenFromAuthToken p r (t ++ [EvGetenv (name +:+ "_TOKEN")]) in
    match err with
    | Some err =>
        if String.eqb name "GHCR_IO" then
          if String.eqb github_token "" then
            (("", Some err), t2 ++ [EvGetenv "GITHUB_TOKEN"])
          else
            ((base64.EncodeToString github_token, None), t2 ++ [EvGetenv "GITHUB_TOKEN"])
        else (("", Some err), t2)
    | None =>
        if String.eqb bearerToken "" then
          (("", Some (Errorf ("could not get a bearer token for " +:+ name))), t2)
        else ((bearerToken, None), t2)
    end
  else ((envToken, None), t ++ [EvGetenv (name +:+ "_TOKEN")]).
Proof.
  cbv zeta. unfold getBearerToken, mbind, M_bind. rewrite Getenv_eq.
  destruct (String.eqb (default "" _) ""); simpl; [|reflexivity].
  destruct (getBearerTokenFromAuthToken _ _ _) as [[bearerToken [err|]] t2].
  - destruct (String.eqb (RegistryName r) "GHCR_IO"); simpl; [|reflexivity].
    destruct (String.eqb_spec (default "" (Environ p !! "GITHUB_TOKEN")) "") as [Hg|Hg];
      [reflexivity|].
    destruct (String.eqb_spec (base64.EncodeToString
                                 (default "" (Environ p !! "GITHUB_TOKEN"))) "") as [Hb|Hb];
      [|reflexivity].
    now apply EncodeToString_empty in Hb.
  - destruct (String.eqb bearerToken ""); reflexivity.
Qed.

Lemma sends_getBearerTokenFromAuthToken p r :
  sends (getBearerTokenFromAuthToken p r)
        (fun rs => rs = [] \/ exists auth, rs = [exchange_request r auth]).
Proof.
  intros t. rewrite getBearerTokenFromAuthToken_eq. cbv zeta.
  destruct (String.eqb _ "").
  - destruct (_ || _).
    + eexists. split; [reflexivity|]. now left.
    + destruct (sends_retrieveBearerToken p r
        (base64.EncodeToString
           (default "" (Environ p !! (RegistryName r +:+ "_USER")) +:+ ":" +:+
            default "" (Environ p !! (RegistryName r +:+ "_PASSWORD"))))
        (t ++ [EvGetenv (RegistryName r +:+ "_AUTH"); EvGetenv (RegistryName r +:+ "_USER");
               EvGetenv (RegistryName r +:+ "_PASSWORD")])) as [ext [E H]].
      exists ([EvGetenv (RegistryName r +:+ "_AUTH"); EvGetenv (RegistryName r +:+ "_USER");
               EvGetenv (RegistryName r +:+ "_PASSWORD")] ++ ext).
      split; [now rewrite E, app_assoc|]. rewrite requests_app. simpl.
      destruct H as [->| ->]; [now left | right; eauto].
  - destruct (sends_retrieveBearerToken p r
        (default "" (Environ p !! (RegistryName r +:+ "_AUTH")))
        (t ++ [EvGetenv (RegistryName r +:+ "_AUTH")])) as [ext [E H]].
    exists ([EvGetenv (RegistryName r +:+ "_AUTH")] ++ ext).
    split; [now rewrite E, app_assoc|]. rewrite requests_app. simpl.
    destruct H as [->| ->]; [now left | right; eauto].
Qed.

(** Acquiring the bearer token first reads [{REGISTRY_NAME}_TOKEN], and sends
    at most the one exchange request. *)
Lemma sends_getBearerToken p r t :
  exists ext,
    snd (getBearerToken p r t) = t ++ EvGetenv (RegistryName r +:+ "_TOKEN") :: ext /\
    (requests ext = [] \/ exists auth, requests ext = [exchange_request r auth]).
Proof.
  rewrite getBearerToken_eq. cbv zeta.
  destruct (String.eqb _ ""); [|exists []; split; [reflexivity | now left]].
  destruct (sends_getBearerTokenFromAuthToken p r
              (t ++ [EvGetenv (RegistryName r +:+ "_TOKEN")])) as [ext [E H]].
  destruct (getBearerTokenFromAuthToken _ _ _) as [[bearerToken [err|]] t2];
    simpl in E; subst t2.
  - destruct (String.eqb (RegistryName r) "GHCR_IO").
    + assert (Hx : exists ext',
          (t ++ [EvGetenv (RegistryName r +:+ "_TOKEN")]) ++ ext ++ [EvGetenv "GITHUB_TOKEN"]
          = t ++ EvGetenv (RegistryName r +:+ "_TOKEN") :: ext' /\
          (requests ext' = [] \/ exists auth, requests ext' = [exchange_request r auth])).
      { exists (ext ++ [EvGetenv "GITHUB_TOKEN"]). split; [now rewrite <- app_assoc|].
        rewrite requests_app, app_nil_r. exact H. }
      destruct (String.eqb _ ""); simpl; rewrite <- app_assoc; exact Hx.
    + exists ext. simpl. split; [now rewrite <- app_assoc | exact H].
  - exists ext. destruct (String.eqb bearerToken ""); simpl;
      (split; [now rewrite <- app_assoc | exact H]).
Qed.

(** ** The fall-through of [IsTagExist] *)

Lemma IsTagExist_on_error p r tag t found e t1 :
  checkManifestForTag p r "" tag t = ((found, Some e), t1) ->
  IsTagExist p r tag t =
    (let '((bearerToken, err), t2) := getBearerToken p r t1 in
     match err with
     | Some err => ((false, Some err), t2)
     | None => checkManifestForTag p r bearerToken tag t2
     end).
Proof.
  intros H. unfold IsTagExist, mbind, M_bind. rewrite H.
  destruct (getBearerToken p r t1) as [[bearerToken [err|]] t2]; reflexivity.
Qed.

Lemma sent_since_app (t ext : Trace) : sent_since t (t ++ ext) = requests ext.
Proof. unfold sent_since. rewrite requests_app. apply drop_app_length. Qed.

(** ** C3 *)

(** C3. When the anonymous manifest check fails with an error, [IsTagExist]
    drops that error and goes on to acquire a bearer token (the next call on
    the trace reads [{REGISTRY_NAME}_TOKEN]); its result is then fixed by what
    follows alone: [(false, err)] with the error of the token acquisition when
    that fails, and otherwise the result or error of the manifest check with
    the token. *)
Theorem IsTagExist_fallthrough p r tag t found e t1 :
  checkManifestForTag p r "" tag t = ((found, Some e), t1) ->
  IsTagExist p r tag t =
    (let '((bearerToken, err), t2) := getBearerToken p r t1 in
     match err with
     | Some err => ((false, Some err), t2)
     | None => checkManifestForTag p r bearerToken tag t2
     end) /\
  exists ext,
    snd (IsTagExist p r tag t) = t1 ++ EvGetenv (RegistryName r +:+ "_TOKEN") :: ext.
Proof.
  intros H. pose proof (IsTagExist_on_error _ _ _ _ _ _ _ H) as E.
  split; [exact E|]. rewrite E.
  destruct (sends_getBearerToken p r t1) as [ext [Et _]].
  destruct (getBearerToken p r t1) as [[bearerToken [err|]] t2]; simpl in Et; subst t2.
  - exists ext. reflexivity.
  - destruct (sends_checkManifestForTag p r bearerToken tag
                (t1 ++ EvGetenv (RegistryName r +:+ "_TOKEN") :: ext)) as [ext' [E' _]].
    exists (ext ++ ext'). rewrite E'. now rewrite <- app_assoc.
Qed.

Lemma IsTagExist_fallthrough_witness :
  IsTagExist (demo_platform ∅) (demo_registry "REG" [status_only 401]) "v1" []
  = ((false, Some (Errorf "could not get credentials for REG")),
     [EvDo (manifest_request (demo_registry "REG" [status_only 401]) "v1" "");
      EvGetenv "REG_TOKEN"; EvGetenv "REG_AUTH"; EvGetenv "REG_USER"; EvGetenv "REG_PASSWORD"]).
Proof.
  exact (proj1 (IsTagExist_fallthrough (demo_platform ∅) (demo_registry "REG" [status_only 401])
                  "v1" [] false (Errorf "unexpected response registry API: 401") _ eq_refl)).
Defined.

(** ** C4 *)

(** C4. When [{REGISTRY_NAME}_TOKEN] is set to a non-empty value, acquiring
    the bearer token returns that value with no error after reading that one
    variable and sending no request; and when the anonymous check has failed,
    [IsTagExist] is the manifest check with that token, whose request carries
    the header [Authorization: Bearer value]. *)
Theorem getBearerToken_from_env p r value :
  let key := RegistryName r +:+ "_TOKEN" in
  supplies p key value ->
  (forall t, getBearerToken p r t = ((value, None), t ++ [EvGetenv key])) /\
  (forall tag t found e t1,
     checkManifestForTag p r "" tag t = ((found, Some e), t1) ->
     IsTagExist p r tag t = checkManifestForTag p r value tag (t1 ++ [EvGetenv key]) /\
     sent_since t (snd (IsTagExist p r tag t)) =
       match url_Parse p (manifest_url r tag) with
       | Some _ => []
       | None => [manifest_request r tag "";
                  {| ReqMethod := MethodHead; ReqURL := manifest_url r tag;
                     ReqHeader := {[ "Authorization" := ["Bearer " +:+ value] ]} |}]
       end).
Proof.
  intros key Hs.
  assert (Hget : forall t, getBearerToken p r t = ((value, None), t ++ [EvGetenv key])).
  { intros t. rewrite getBearerToken_eq. cbv zeta. fold key.
    rewrite (Getenv_supplies _ _ _ Hs), eqb_empty_false by apply Hs. reflexivity. }
  split; [exact Hget|]. intros tag t found e t1 H.
  assert (E : IsTagExist p r tag t = checkManifestForTag p r value tag (t1 ++ [EvGetenv key])).
  { rewrite (IsTagExist_on_error _ _ _ _ _ _ _ H), Hget. reflexivity. }
  split; [exact E|]. rewrite E.
  pose proof (checkManifestForTag_trace p r "" tag t) as T1. rewrite H in T1.
  pose proof (checkManifestForTag_trace p r value tag (t1 ++ [EvGetenv key])) as T2.
  cbv zeta in T1, T2. simpl in T1. rewrite T2. rewrite eqb_empty_false by apply Hs.
  destruct (url_Parse p (manifest_url r tag)); subst t1.
  - apply (sent_since_app t [EvGetenv key]).
  - rewrite <- !app_assoc. apply sent_since_app.
Qed.

Lemma getBearerToken_from_env_witness :
  IsTagExist (demo_platform {[ "REG_TOKEN" := "abc" ]})
             (demo_registry "REG" [refused; status_only 200]) "v1" []
  = checkManifestForTag (demo_platform {[ "REG_TOKEN" := "abc" ]})
      (demo_registry "REG" [refused; status_only 200]) "abc" "v1"
      [EvDo (manifest_request (demo_registry "REG" [refused; status_only 200]) "v1" "");
       EvGetenv "REG_TOKEN"].
Proof.
  refine (proj1 (proj2 (getBearerToken_from_env (demo_platform {[ "REG_TOKEN" := "abc" ]})
            (demo_registry "REG" [refused; status_only 200]) "abc" _)
            "v1" [] false (NetError "connection refused") _ eq_refl)).
  split; [reflexivity | discriminate].
Defined.

(** ** C5 *)

Lemma orb_empty_false (user pass : string) :
  user <> "" -> pass <> "" -> String.eqb user "" || String.eqb pass "" = false.
Proof. intros Hu Hp. now rewrite !eqb_empty_false. Qed.

Lemma orb_empty_true (user pass : string) :
  user = "" \/ pass = "" -> String.eqb user "" || String.eqb pass "" = true.
Proof. intros [-> | ->]; [reflexivity | apply orb_true_r]. Qed.

(** When [{REGISTRY_NAME}_TOKEN] supplies nothing, the requests of the
    acquisition are those of the auth-token path. *)
Lemma getBearerToken_sent p r t :
  let t1 := t ++ [EvGetenv (RegistryName r +:+ "_TOKEN")] in
  supplies_nothing p (RegistryName r +:+ "_TOKEN") ->
  sent_since t (snd (getBearerToken p r t))
  = sent_since t1 (snd (getBearerTokenFromAuthToken p r t1)).
Proof.
  intros t1 Htok. apply Getenv_supplies_nothing in Htok.
  rewrite getBearerToken_eq. cbv zeta. rewrite Htok. simpl. fold t1.
  destruct (sends_getBearerTokenFromAuthToken p r t1) as [ext [E _]].
  destruct (getBearerTokenFromAuthToken p r t1) as [[bearerToken [err|]] t2];
    simpl in E; subst t2; simpl.
  - rewrite sent_since_app. unfold t1. destruct (String.eqb (RegistryName r) "GHCR_IO").
    + destruct (String.eqb _ ""); simpl; rewrite <- !app_assoc, sent_since_app;
        simpl; now rewrite requests_app, app_nil_r.
    + simpl. now rewrite <- app_assoc, sent_since_app.
  - rewrite sent_since_app. unfold t1.
    destruct (String.eqb bearerToken ""); simpl; now rewrite <- app_assoc, sent_since_app.
Qed.

(** C5. The auth token of the exchange, which [getBearerToken] runs when
    [{REGISTRY_NAME}_TOKEN] supplies no bearer token.  A variable is read as
    set when it holds a non-empty value.  If [{REGISTRY_NAME}_AUTH] is set,
    the exchange is made with its value.  Otherwise, if
    [{REGISTRY_NAME}_USER] and [{REGISTRY_NAME}_PASSWORD] are both set, the
    exchange is made with the base64 encoding of [user:pass]; and if one of
    them is not, no exchange is made and the error names the registry.  The
    exchange sends the auth token as [Authorization: Basic token], and it is
    the one request of the acquisition. *)
Theorem getBearerTokenFromAuthToken_auth_token p r t :
  let name := RegistryName r in
  let t1 := t ++ [EvGetenv (name +:+ "_AUTH")] in
  let t3 := t ++ [EvGetenv (name +:+ "_AUTH"); EvGetenv (name +:+ "_USER");
                  EvGetenv (name +:+ "_PASSWORD")] in
  let exchange (authToken : string) : Request :=
    {| ReqMethod := MethodGet; ReqURL := exchange_url r;
       ReqHeader := {[ "Authorization" := ["Basic " +:+ authToken] ]} |} in
  (forall auth, supplies p (name +:+ "_AUTH") auth ->
     getBearerTokenFromAuthToken p r t = retrieveBearerToken p r auth t1) /\
  (supplies_nothing p (name +:+ "_AUTH") ->
     (forall user pass,
        supplies p (name +:+ "_USER") user -> supplies p (name +:+ "_PASSWORD") pass ->
        getAuthTokenFromCredentials p r t1
          = ((base64.EncodeToString (user +:+ ":" +:+ pass), None), t3) /\
        getBearerTokenFromAuthToken p r t
          = retrieveBearerToken p r (base64.EncodeToString (user +:+ ":" +:+ pass)) t3) /\
     (supplies_nothing p (name +:+ "_USER") \/ supplies_nothing p (name +:+ "_PASSWORD") ->
        getBearerTokenFromAuthToken p r t
          = (("", Some (Errorf ("could not get credentials for " +:+ name))), t3))) /\
  (forall authToken t', url_Parse p (exchange_url r) = None ->
     sent_since t' (snd (retrieveBearerToken p r authToken t')) = [exchange authToken]) /\
  (supplies_nothing p (name +:+ "_TOKEN") -> url_Parse p (exchange_url r) = None ->
     (forall auth, supplies p (name +:+ "_AUTH") auth ->
        sent_since t (snd (getBearerToken p r t)) = [exchange auth]) /\
     (forall user pass,
        supplies_nothing p (name +:+ "_AUTH") ->
        supplies p (name +:+ "_USER") user -> supplies p (name +:+ "_PASSWORD") pass ->
        sent_since t (snd (getBearerToken p r t))
          = [exchange (base64.EncodeToString (user +:+ ":" +:+ pass))]) /\
     (supplies_nothing p (name +:+ "_AUTH") ->
      supplies_nothing p (name +:+ "_USER") \/ supplies_nothing p (name +:+ "_PASSWORD") ->
      sent_since t (snd (getBearerToken p r t)) = [])).
Proof.
  intros name t1 t3 exchange.
  assert (Hauth : forall t auth, supplies p (name +:+ "_AUTH") auth ->
     getBearerTokenFromAuthToken p r t
       = retrieveBearerToken p r auth (t ++ [EvGetenv (name +:+ "_AUTH")])).
  { intros t0 auth Hs. rewrite getBearerTokenFromAuthToken_eq. cbv zeta. fold name.
    rewrite (Getenv_supplies _ _ _ Hs), eqb_empty_false by apply Hs. reflexivity. }
  assert (Hcred : forall t user pass, supplies_nothing p (name +:+ "_AUTH") ->
     supplies p (name +:+ "_USER") user -> supplies p (name +:+ "_PASSWORD") pass ->
     getBearerTokenFromAuthToken p r t
       = retrieveBearerToken p r (base64.EncodeToString (user +:+ ":" +:+ pass))
           (t ++ [EvGetenv (name +:+ "_AUTH"); EvGetenv (name +:+ "_USER");
                  EvGetenv (name +:+ "_PASSWORD")])).
  { intros t0 user pass Ha Hu Hp. apply Getenv_supplies_nothing in Ha.
    rewrite getBearerTokenFromAuthToken_eq. cbv zeta. fold name. rewrite Ha.
    rewrite (Getenv_supplies _ _ _ Hu), (Getenv_supplies _ _ _ Hp).
    rewrite orb_empty_false by (apply Hu || apply Hp). reflexivity. }
  assert (Hnone : forall t, supplies_nothing p (name +:+ "_AUTH") ->
     supplies_nothing p (name +:+ "_USER") \/ supplies_nothing p (name +:+ "_PASSWORD") ->
     getBearerTokenFromAuthToken p r t
       = (("", Some (Errorf ("could not get credentials for " +:+ name))),
          t ++ [EvGetenv (name +:+ "_AUTH"); EvGetenv (name +:+ "_USER");
                EvGetenv (name +:+ "_PASSWORD")])).
  { intros t0 Ha Hup. apply Getenv_supplies_nothing in Ha.
    rewrite getBearerTokenFromAuthToken_eq. cbv zeta. fold name. rewrite Ha.
    rewrite orb_empty_true; [reflexivity|].
    destruct Hup as [H|H]; apply Getenv_supplies_nothing in H; auto. }
  assert (Hsent : forall authToken t', url_Parse p (exchange_url r) = None ->
     sent_since t' (snd (retrieveBearerToken p r authToken t')) = [exchange authToken]).
  { intros authToken t' Hurl. rewrite retrieveBearerToken_eq, Hurl. apply sent_since_app. }
  split; [apply Hauth|]. split; [|split; [exact Hsent|]].
  - intros Ha. split; [|apply Hnone; exact Ha].
    intros user pass Hu Hp. split; [|now apply Hcred].
    rewrite getAuthTokenFromCredentials_eq. cbv zeta. fold name.
    rewrite (Getenv_supplies _ _ _ Hu), (Getenv_supplies _ _ _ Hp).
    rewrite orb_empty_false by (apply Hu || apply Hp).
    unfold t1, t3. now rewrite <- app_assoc.
  - intros Htok Hurl. rewrite (getBearerToken_sent p r t Htok). cbv zeta. fold name.
    split; [|split].
    + intros auth Hs. rewrite (Hauth _ auth Hs).
      pose proof (Hsent auth ((t ++ [EvGetenv (name +:+ "_TOKEN")])
                                ++ [EvGetenv (name +:+ "_AUTH")]) Hurl) as S.
      rewrite retrieveBearerToken_eq, Hurl in S |- *. simpl in S |- *.
      rewrite <- app_assoc. rewrite <- app_assoc in S.
      rewrite sent_since_app in S |- *. exact S.
    + intros user pass Ha Hu Hp. rewrite (Hcred _ user pass Ha Hu Hp).
      rewrite retrieveBearerToken_eq, Hurl. simpl.
      rewrite <- app_assoc, sent_since_app. reflexivity.
    + intros Ha Hup. rewrite (Hnone _ Ha Hup). simpl. apply sent_since_app.
Qed.

Lemma getBearerTokenFromAuthToken_auth_token_witness :
  getAuthTokenFromCredentials (demo_platform {[ "REG_USER" := "u"; "REG_PASSWORD" := "p" ]})
    (demo_registry "REG" []) [EvGetenv "REG_AUTH"]
  = (("dTpw", None), [EvGetenv "REG_AUTH"; EvGetenv "REG_USER"; EvGetenv "REG_PASSWORD"]).
Proof.
  refine (proj1 (proj1 (proj1 (proj2 (getBearerTokenFromAuthToken_auth_token
            (demo_platform {[ "REG_USER" := "u"; "REG_PASSWORD" := "p" ]})
            (demo_registry "REG" []) [])) _) "u" "p" _ _)).
  - left. reflexivity.
  - split; [reflexivity | discriminate].
  - split; [reflexivity | discriminate].
Defined.

Example getBearerToken_basic_credentials :
  sent_since [] (snd (getBearerToken
    (demo_platform {[ "REG_USER" := "u"; "REG_PASSWORD" := "p" ]})
    (demo_registry "REG" [with_body 200 "tok"]) []))
  = [{| ReqMethod := MethodGet;
        ReqURL := "https://reg.example/v2/auth?service=reg.example&scope=repository:org/app:pull";
        ReqHeader := {[ "Authorization" := ["Basic dTpw"] ]} |}].
Proof. reflexivity. Qed.

(** ** C6 *)

(** C6. Let [{REGISTRY_NAME}_TOKEN] supply nothing and let the exchange path
    fail with an error.  For a registry named other than [GHCR_IO] that error
    is returned as it is.  For the registry named [GHCR_IO]: if
    [GITHUB_TOKEN] is set to a non-empty value, the bearer token is its base64
    encoding, with no error and no request sent for it; if [GITHUB_TOKEN]
    supplies nothing, the error of the exchange path is returned. *)
Theorem getBearerToken_exchange_failed p r t bearerToken err t2 :
  let name := RegistryName r in
  supplies_nothing p (name +:+ "_TOKEN") ->
  getBearerTokenFromAuthToken p r (t ++ [EvGetenv (name +:+ "_TOKEN")])
    = ((bearerToken, Some err), t2) ->
  (name <> "GHCR_IO" -> getBearerToken p r t = (("", Some err), t2)) /\
  (name = "GHCR_IO" ->
     (forall github_token, supplies p "GITHUB_TOKEN" github_token ->
        getBearerToken p r t
          = ((base64.EncodeToString github_token, None), t2 ++ [EvGetenv "GITHUB_TOKEN"])) /\
     (supplies_nothing p "GITHUB_TOKEN" ->
        getBearerToken p r t = (("", Some err), t2 ++ [EvGetenv "GITHUB_TOKEN"]))).
Proof.
  intros name Htok H. apply Getenv_supplies_nothing in Htok.
  pose proof (getBearerToken_eq p r t) as E. cbv zeta in E. fold name in E.
  rewrite Htok, H in E. simpl in E. split.
  - intros Hn. rewrite E. apply String.eqb_neq in Hn. now rewrite Hn.
  - intros Hn. rewrite E, Hn. simpl. split.
    + intros github_token Hs.
      rewrite (Getenv_supplies _ _ _ Hs), eqb_empty_false by apply Hs. reflexivity.
    + intros Hs. apply Getenv_supplies_nothing in Hs. now rewrite Hs.
Qed.

Lemma getBearerToken_exchange_failed_witness :
  getBearerToken (demo_platform {[ "GHCR_IO_AUTH" := "YTpi"; "GITHUB_TOKEN" := "xyz" ]})
    (demo_registry "GHCR_IO" [status_only 401; status_only 403]) [EvDo (mkRequest MethodHead "" "")]
  = (("eHl6", None),
     [EvDo (mkRequest MethodHead "" ""); EvGetenv "GHCR_IO_TOKEN"; EvGetenv "GHCR_IO_AUTH";
      EvDo (exchange_request (demo_registry "GHCR_IO" []) "YTpi"); EvGetenv "GITHUB_TOKEN"]).
Proof.
  refine (proj1 (proj2 (getBearerToken_exchange_failed
            (demo_platform {[ "GHCR_IO_AUTH" := "YTpi"; "GITHUB_TOKEN" := "xyz" ]})
            (demo_registry "GHCR_IO" [status_only 401; status_only 403])
            [EvDo (mkRequest MethodHead "" "")]
            "" (Errorf "unexpected response code 403") _ _ eq_refl) eq_refl) "xyz" _).
  - left. reflexivity.
  - split; [reflexivity | discriminate].
Defined.

(** ** C7 *)

(** C7. The token exchange sends one GET request to
    [https://{registryURL}/v2/auth?service={registryURL}&scope=repository:{imagePath}:pull]
    with the header [Authorization: Basic {authToken}].  On a 200 answer it
    decodes the body and returns the token field, or the error of the decoder
    when the body does not decode; on any other status it returns an error
    whose message ends with the status code in decimal. *)
Theorem retrieveBearerToken_exchange p r auth t :
  let result := fst (retrieveBearerToken p r auth t) in
  url_Parse p (exchange_url r) = None ->
  snd (retrieveBearerToken p r auth t) =
    t ++ [EvDo {| ReqMethod := MethodGet;
                  ReqURL := "https://" +:+ RegistryURL r +:+ "/v2/auth?service="
                              +:+ RegistryURL r +:+ "&scope=repository:"
                              +:+ ImagePath r +:+ ":pull";
                  ReqHeader := {[ "Authorization" := ["Basic " +:+ auth] ]} |}] /\
  forall res body,
    Do (HttpClient r) (requests t) (exchange_request r auth) = Ok res ->
    Body res = Ok body ->
    (StatusCode res = 200 ->
       (forall token, Unmarshal_tokenResponse p body = (token, None) ->
          result = (token, None)) /\
       (forall token err, Unmarshal_tokenResponse p body = (token, Some err) ->
          result = ("", Some err))) /\
    (StatusCode res <> 200 ->
       result = ("", Some (Errorf ("unexpected response code " +:+ pretty (StatusCode res))))).
Proof.
  intros result Hurl. subst result. rewrite retrieveBearerToken_eq, Hurl. simpl.
  split; [reflexivity|]. intros res body Hdo Hbody. rewrite Hdo, Hbody. split.
  - intros ->. simpl. split.
    + intros token ->. reflexivity.
    + intros token err ->. reflexivity.
  - intros Hn. destruct (Z.eqb_spec (StatusCode res) 200); [contradiction | reflexivity].
Qed.

Lemma retrieveBearerToken_exchange_witness :
  fst (retrieveBearerToken (demo_platform ∅) (demo_registry "REG" [status_only 401]) "dTpw" [])
  = ("", Some (Errorf "unexpected response code 401")).
Proof.
  refine (proj2 (proj2 (retrieveBearerToken_exchange (demo_platform ∅)
            (demo_registry "REG" [status_only 401]) "dTpw" [] eq_refl)
            {| StatusCode := 401; Body := Ok "" |} "" eq_refl eq_refl) _).
  simpl. lia.
Defined.

Example retrieveBearerToken_token :
  fst (retrieveBearerToken (demo_platform ∅) (demo_registry "REG" [with_body 200 "tok"]) "dTpw" [])
  = ("tok", None).
Proof. reflexivity. Qed.

Example retrieveBearerToken_not_json :
  fst (retrieveBearerToken (demo_platform ∅) (demo_registry "REG" [with_body 200 "<html>"]) "dTpw" [])
  = ("", Some (JSONError "invalid character")).
Proof. reflexivity. Qed.

(** ** C8 *)

(** A bearer token returned without error is not empty. *)
Lemma getBearerToken_nonempty p r t bearerToken t' :
  getBearerToken p r t = ((bearerToken, None), t') -> bearerToken <> "".
Proof.
  rewrite getBearerToken_eq. cbv zeta.
  destruct (String.eqb_spec (default "" (Environ p !! (RegistryName r +:+ "_TOKEN"))) "")
    as [_|Hne]; [|intros [= <- _]; exact Hne].
  destruct (getBearerTokenFromAuthToken _ _ _) as [[token [err|]] t2].
  - destruct (String.eqb (RegistryName r) "GHCR_IO"); [|discriminate].
    destruct (String.eqb_spec (default "" (Environ p !! "GITHUB_TOKEN")) "") as [|Hg];
      [discriminate|].
    intros [= <- _] Hb. now apply EncodeToString_empty in Hb.
  - destruct (String.eqb_spec token "") as [|Hne]; [discriminate|].
    intros [= <- _]. exact Hne.
Qed.

(** C8. Whenever [getBearerToken] returns without error, the bearer token is
    a non-empty string.  In particular, when [{REGISTRY_NAME}_TOKEN] supplies
    nothing and the cascade reaches an exchange that is answered 200 with a
    body whose token field decodes to the empty string (empty or missing),
    [getBearerToken] returns an error and no token. *)
Theorem getBearerToken_never_empty p r t :
  let name := RegistryName r in
  (forall bearerToken t',
     getBearerToken p r t = ((bearerToken, None), t') -> bearerToken <> "") /\
  (forall auth t1 res body,
     supplies_nothing p (name +:+ "_TOKEN") ->
     getBearerTokenFromAuthToken p r (t ++ [EvGetenv (name +:+ "_TOKEN")])
       = retrieveBearerToken p r auth t1 ->
     url_Parse p (exchange_url r) = None ->
     Do (HttpClient r) (requests t1) (exchange_request r auth) = Ok res ->
     StatusCode res = 200 ->
     Body res = Ok body ->
     Unmarshal_tokenResponse p body = ("", None) ->
     getBearerToken p r t
       = (("", Some (Errorf ("could not get a bearer token for " +:+ name))),
          t1 ++ [EvDo (exchange_request r auth)])).
Proof.
  intros name. split; [intros bearerToken t'; apply getBearerToken_nonempty|].
  intros auth t1 res body Htok Hpath Hurl Hdo Hstatus Hbody Hjson.
  apply Getenv_supplies_nothing in Htok.
  rewrite getBearerToken_eq. cbv zeta. fold name. rewrite Htok, Hpath. simpl.
  rewrite retrieveBearerToken_eq, Hurl, Hdo, Hbody, Hstatus, Hjson. reflexivity.
Qed.

Lemma getBearerToken_never_empty_witness :
  getBearerToken (demo_platform {[ "REG_AUTH" := "dTpw" ]})
    (demo_registry "REG" [with_body 200 "{}"]) []
  = (("", Some (Errorf "could not get a bearer token for REG")),
     [EvGetenv "REG_TOKEN"; EvGetenv "REG_AUTH";
      EvDo (exchange_request (demo_registry "REG" []) "dTpw")]).
Proof.
  refine (proj2 (getBearerToken_never_empty (demo_platform {[ "REG_AUTH" := "dTpw" ]})
            (demo_registry "REG" [with_body 200 "{}"]) [])
            "dTpw" [EvGetenv "REG_TOKEN"; EvGetenv "REG_AUTH"]
            {| StatusCode := 200; Body := Ok "{}" |} "{}" _ eq_refl eq_refl eq_refl eq_refl
            eq_refl eq_refl).
  left. reflexivity.
Defined.

(** ** C9 *)

Lemma getBearerToken_supplied p r value t :
  supplies p (RegistryName r +:+ "_TOKEN") value ->
  getBearerToken p r t = ((value, None), t ++ [EvGetenv (RegistryName r +:+ "_TOKEN")]).
Proof.
  intros Hs. rewrite getBearerToken_eq. cbv zeta.
  rewrite (Getenv_supplies _ _ _ Hs), eqb_empty_false by apply Hs. reflexivity.
Qed.

(** The requests of one [IsTagExist]: the anonymous HEAD, then the GET of the
    exchange, then the HEAD with the bearer token, each sent at most once. *)
Lemma IsTagExist_sent p r tag t :
  exists s1 s2 s3,
    sent_since t (snd (IsTagExist p r tag t)) = s1 ++ s2 ++ s3 /\
    at_most (manifest_request r tag "") s1 /\
    (s2 = [] \/ exists auth, s2 = [exchange_request r auth]) /\
    (s3 = [] \/ exists bearer, bearer <> "" /\
                  s3 = [manifest_request r tag ("Bearer " +:+ bearer)]) /\
    (forall found t1, checkManifestForTag p r "" tag t = ((found, None), t1) ->
       s1 = [manifest_request r tag ""] /\ s2 = [] /\ s3 = []) /\
    (forall value, supplies p (RegistryName r +:+ "_TOKEN") value -> s2 = []).
Proof.
  destruct (checkManifestForTag p r "" tag t) as [[found [e|]] t1] eqn:H.
  - rewrite (IsTagExist_on_error _ _ _ _ _ _ _ H).
    destruct (sends_checkManifestForTag p r "" tag t) as [e1 [E1 A1]].
    rewrite H in E1. simpl in E1, A1. subst t1.
    destruct (sends_getBearerToken p r (t ++ e1)) as [e2 [E2 A2]].
    destruct (getBearerToken p r (t ++ e1)) as [[bearer [err|]] t2] eqn:Hb;
      simpl in E2; subst t2.
    + exists (requests e1), (requests e2), []. simpl.
      rewrite <- app_assoc, sent_since_app, requests_app. simpl. rewrite app_nil_r.
      repeat split; auto; try discriminate.
      intros value Hs. rewrite (getBearerToken_supplied _ _ _ _ Hs) in Hb. discriminate.
    + pose proof (getBearerToken_nonempty _ _ _ _ _ Hb) as Hne.
      destruct (sends_checkManifestForTag p r bearer tag
                  ((t ++ e1) ++ EvGetenv (RegistryName r +:+ "_TOKEN") :: e2)) as [e3 [E3 A3]].
      rewrite eqb_empty_false in A3 by exact Hne.
      exists (requests e1), (requests e2), (requests e3). rewrite E3.
      rewrite <- !app_assoc, sent_since_app, !requests_app. simpl.
      repeat split; auto; try discriminate.
      * destruct A3 as [->|A3]; [now left | right; eauto].
      * intros value Hs. rewrite (getBearerToken_supplied _ _ _ _ Hs) in Hb.
        injection Hb as _ Hb. apply app_inv_head in Hb. injection Hb as <-. reflexivity.
  - destruct (checkManifestForTag_ok _ _ _ _ _ _ _ H) as [Ht1 _]. simpl in Ht1.
    unfold IsTagExist, mbind, M_bind. rewrite H. simpl. subst t1.
    exists [manifest_request r tag ""], [], []. rewrite sent_since_app.
    repeat split; auto. now right.
Qed.

(** C9. One [IsTagExist] sends at most three requests: the anonymous HEAD of
    the manifest check, then the GET of the exchange, then the HEAD of the
    manifest check with the bearer token, each at most once and in this
    order; so at most two HEAD requests and at most one GET request.  It
    sends exactly one request, the anonymous HEAD, when the anonymous check
    returns without error, and no GET request when [{REGISTRY_NAME}_TOKEN]
    supplies the bearer token. *)
Theorem IsTagExist_request_count p r tag t :
  let sent := sent_since t (snd (IsTagExist p r tag t)) in
  (exists s1 s2 s3,
     sent = s1 ++ s2 ++ s3 /\
     (s1 = [] \/ s1 = [manifest_request r tag ""]) /\
     (s2 = [] \/ exists auth, s2 = [exchange_request r auth]) /\
     (s3 = [] \/ exists bearer, bearer <> "" /\
                   s3 = [manifest_request r tag ("Bearer " +:+ bearer)])) /\
  (length sent <= 3)%nat /\
  (length (List.filter is_head sent) <= 2)%nat /\
  (length (List.filter is_get sent) <= 1)%nat /\
  (forall found t1, checkManifestForTag p r "" tag t = ((found, None), t1) ->
     sent = [manifest_request r tag ""]) /\
  (forall value, supplies p (RegistryName r +:+ "_TOKEN") value ->
     List.filter is_get sent = [] /\ (length sent <= 2)%nat).
Proof.
  intros sent. subst sent.
  destruct (IsTagExist_sent p r tag t) as (s1 & s2 & s3 & E & A1 & A2 & A3 & Hok & Htok).
  rewrite E. split; [exists s1, s2, s3; auto|].
  assert (L1 : (length s1 <= 1)%nat /\ List.filter is_get s1 = []
               /\ (length (List.filter is_head s1) <= 1)%nat).
  { destruct A1 as [->| ->]; simpl; repeat split; lia. }
  assert (L2 : (length s2 <= 1)%nat /\ (length (List.filter is_get s2) <= 1)%nat
               /\ List.filter is_head s2 = []).
  { destruct A2 as [->|[auth ->]]; simpl; repeat split; lia. }
  assert (L3 : (length s3 <= 1)%nat /\ List.filter is_get s3 = []
               /\ (length (List.filter is_head s3) <= 1)%nat).
  { destruct A3 as [->|[bearer [_ ->]]]; simpl; repeat split; lia. }
  destruct L1 as (L1 & G1 & H1), L2 as (L2 & G2 & H2), L3 as (L3 & G3 & H3).
  rewrite !List.filter_app, !length_app, G1, G3, H2. simpl. rewrite app_nil_r.
  repeat split; try lia.
  - intros found t1 H. destruct (Hok _ _ H) as (-> & -> & ->). reflexivity.
  - rewrite (Htok _ H). reflexivity.
  - rewrite (Htok _ H). simpl. lia.
Qed.

Example IsTagExist_three_requests :
  length (sent_since []
    (snd (IsTagExist (demo_platform {[ "REG_USER" := "u"; "REG_PASSWORD" := "p" ]})
            (demo_registry "REG" [status_only 401; with_body 200 "tok"; status_only 200])
            "v1" []))) = 3%nat.
Proof. reflexivity. Qed.

Lemma IsTagExist_request_count_witness :
  sent_since [] (snd (IsTagExist (demo_platform ∅) (demo_registry "REG" [status_only 200]) "v1" []))
  = [manifest_request (demo_registry "REG" [status_only 200]) "v1" ""].
Proof.
  exact (proj1 (proj2 (proj2 (proj2 (proj2 (IsTagExist_request_count (demo_platform ∅)
           (demo_registry "REG" [status_only 200]) "v1" []))))) true _ eq_refl).
Defined.

(** ** C10 *)

(** [os.Getenv] cannot tell a variable set to the empty string from an unset
    one. *)
Lemma Getenv_empty_unset (env : gmap string string) (key k : string) :
  default "" (<[key := ""]> env !! k) = default "" (delete key env !! k).
Proof.
  destruct (decide (key = k)) as [->|Hne].
  - now rewrite lookup_insert_eq, lookup_delete_eq.
  - now rewrite lookup_insert_ne, lookup_delete_ne.
Qed.

(** The methods depend on the environment only through what [os.Getenv]
    returns. *)
Section SameGetenv.

Variables (p : Platform) (env1 env2 : gmap string string).
Hypothesis same : forall k, default "" (env1 !! k) = default "" (env2 !! k).

Lemma getBearerTokenFromAuthToken_same r t :
  getBearerTokenFromAuthToken (with_Environ p env1) r t
  = getBearerTokenFromAuthToken (with_Environ p env2) r t.
Proof.
  rewrite !getBearerTokenFromAuthToken_eq. simpl. now rewrite !same.
Qed.

Lemma getAuthTokenFromCredentials_same r t :
  getAuthTokenFromCredentials (with_Environ p env1) r t
  = getAuthTokenFromCredentials (with_Environ p env2) r t.
Proof.
  rewrite !getAuthTokenFromCredentials_eq. simpl. now rewrite !same.
Qed.

Lemma getBearerToken_same r t :
  getBearerToken (with_Environ p env1) r t = getBearerToken (with_Environ p env2) r t.
Proof.
  rewrite !getBearerToken_eq. simpl.
  rewrite !same, getBearerTokenFromAuthToken_same. reflexivity.
Qed.

Lemma IsTagExist_same r tag t :
  IsTagExist (with_Environ p env1) r tag t = IsTagExist (with_Environ p env2) r tag t.
Proof.
  unfold IsTagExist, mbind, M_bind.
  change (checkManifestForTag (with_Environ p env1) r "" tag t)
    with (checkManifestForTag (with_Environ p env2) r "" tag t).
  destruct (checkManifestForTag (with_Environ p env2) r "" tag t) as [[found [e|]] t1];
    [|reflexivity].
  rewrite getBearerToken_same.
  destruct (getBearerToken (with_Environ p env2) r t1) as [[bearerToken [err|]] t2];
    reflexivity.
Qed.

End SameGetenv.

(** C10. Setting a variable to the empty string gives the same results and
    the same calls as unsetting it, for the whole cascade and for
    [IsTagExist].  With a variable set to the empty string: for
    [{REGISTRY_NAME}_TOKEN] the acquisition goes on to read
    [{REGISTRY_NAME}_AUTH]; for [{REGISTRY_NAME}_AUTH] it goes on to the
    credentials; for [{REGISTRY_NAME}_USER] or [{REGISTRY_NAME}_PASSWORD] the
    credentials give the missing-credentials error; and for [GITHUB_TOKEN]
    the error of a failed exchange path is returned for [GHCR_IO] too. *)
Theorem empty_is_unset p r key :
  let name := RegistryName r in
  let p_empty := with_Environ p (<[key := ""]> (Environ p)) in
  let p_unset := with_Environ p (delete key (Environ p)) in
  (forall t, getAuthTokenFromCredentials p_empty r t = getAuthTokenFromCredentials p_unset r t) /\
  (forall t, getBearerTokenFromAuthToken p_empty r t = getBearerTokenFromAuthToken p_unset r t) /\
  (forall t, getBearerToken p_empty r t = getBearerToken p_unset r t) /\
  (forall tag t, IsTagExist p_empty r tag t = IsTagExist p_unset r tag t) /\
  (forall t, Environ p !! (name +:+ "_TOKEN") = Some "" ->
     exists ext, snd (getBearerToken p r t)
                 = t ++ EvGetenv (name +:+ "_TOKEN") :: EvGetenv (name +:+ "_AUTH") :: ext) /\
  (forall t, Environ p !! (name +:+ "_AUTH") = Some "" ->
     exists ext, snd (getBearerTokenFromAuthToken p r t)
                 = t ++ EvGetenv (name +:+ "_AUTH") :: EvGetenv (name +:+ "_USER")
                     :: EvGetenv (name +:+ "_PASSWORD") :: ext) /\
  (forall t, Environ p !! (name +:+ "_USER") = Some "" \/
             Environ p !! (name +:+ "_PASSWORD") = Some "" ->
     fst (getAuthTokenFromCredentials p r t)
     = ("", Some (Errorf ("could not get credentials for " +:+ name)))) /\
  (forall t bearerToken err t2,
     Environ p !! "GITHUB_TOKEN" = Some "" ->
     supplies_nothing p (name +:+ "_TOKEN") ->
     getBearerTokenFromAuthToken p r (t ++ [EvGetenv (name +:+ "_TOKEN")])
       = ((bearerToken, Some err), t2) ->
     fst (getBearerToken p r t) = ("", Some err)).
Proof.
  intros name p_empty p_unset.
  pose proof (Getenv_empty_unset (Environ p) key) as Hsame.
  split; [intros t; now apply getAuthTokenFromCredentials_same|].
  split; [intros t; now apply getBearerTokenFromAuthToken_same|].
  split; [intros t; now apply getBearerToken_same|].
  split; [intros tag t; now apply IsTagExist_same|].
  split; [|split; [|split]].
  - intros t Htok. rewrite getBearerToken_eq. cbv zeta. fold name. rewrite Htok. simpl.
    destruct (sends_getBearerTokenFromAuthToken p r (t ++ [EvGetenv (name +:+ "_TOKEN")]))
      as [ext [E _]].
    assert (Hauth : exists ext', ext = EvGetenv (name +:+ "_AUTH") :: ext').
    { rewrite getBearerTokenFromAuthToken_eq in E. cbv zeta in E. fold name in E.
      destruct (String.eqb _ "") in E.
      - destruct (_ || _) in E.
        + simpl in E. apply app_inv_head in E. subst ext. eauto.
        + destruct (sends_retrieveBearerToken p r
            (base64.EncodeToString
               (default "" (Environ p !! (name +:+ "_USER")) +:+ ":" +:+
                default "" (Environ p !! (name +:+ "_PASSWORD"))))
            ((t ++ [EvGetenv (name +:+ "_TOKEN")]) ++
               [EvGetenv (name +:+ "_AUTH"); EvGetenv (name +:+ "_USER");
                EvGetenv (name +:+ "_PASSWORD")])) as [ext' [E' _]].
          rewrite E', <- app_assoc in E. apply app_inv_head in E. subst ext. simpl. eauto.
      - destruct (sends_retrieveBearerToken p r
            (default "" (Environ p !! (name +:+ "_AUTH")))
            ((t ++ [EvGetenv (name +:+ "_TOKEN")]) ++ [EvGetenv (name +:+ "_AUTH")]))
          as [ext' [E' _]].
        rewrite E', <- app_assoc in E. apply app_inv_head in E. subst ext. simpl. eauto. }
    destruct Hauth as [ext' ->].
    destruct (getBearerTokenFromAuthToken p r _) as [[bearerToken [err|]] t2];
      simpl in E; subst t2.
    + destruct (String.eqb name "GHCR_IO").
      * exists (ext' ++ [EvGetenv "GITHUB_TOKEN"]).
        destruct (String.eqb _ ""); simpl; now rewrite <- !app_assoc.
      * exists ext'. simpl. now rewrite <- app_assoc.
    + exists ext'. destruct (String.eqb bearerToken ""); simpl; now rewrite <- app_assoc.
  - intros t Hauth. rewrite getBearerTokenFromAuthToken_eq. cbv zeta. fold name.
    rewrite Hauth. simpl. destruct (_ || _).
    + exists []. reflexivity.
    + destruct (sends_retrieveBearerToken p r
        (base64.EncodeToString
           (default "" (Environ p !! (name +:+ "_USER")) +:+ ":" +:+
            default "" (Environ p !! (name +:+ "_PASSWORD"))))
        (t ++ [EvGetenv (name +:+ "_AUTH"); EvGetenv (name +:+ "_USER");
               EvGetenv (name +:+ "_PASSWORD")])) as [ext' [E' _]].
      exists ext'. rewrite E'. now rewrite <- app_assoc.
  - intros t Hup. rewrite getAuthTokenFromCredentials_eq. cbv zeta. fold name. simpl.
    rewrite orb_empty_true; [reflexivity|]. destruct Hup as [-> | ->]; auto.
  - intros t bearerToken err t2 Hg Htok H. apply Getenv_supplies_nothing in Htok.
    rewrite getBearerToken_eq. cbv zeta. fold name. rewrite Htok, H, Hg. simpl.
    destruct (String.eqb name "GHCR_IO"); reflexivity.
Qed.

Lemma empty_is_unset_witness :
  fst (getBearerToken
         (demo_platform {[ "GHCR_IO_AUTH" := "YTpi"; "GITHUB_TOKEN" := "" ]})
         (demo_registry "GHCR_IO" [status_only 401]) [])
  = ("", Some (Errorf "unexpected response code 401")).
Proof.
  refine (proj2 (proj2 (proj2 (proj2 (proj2 (proj2 (proj2 (empty_is_unset
            (demo_platform {[ "GHCR_IO_AUTH" := "YTpi"; "GITHUB_TOKEN" := "" ]})
            (demo_registry "GHCR_IO" [status_only 401]) "GITHUB_TOKEN")))))))
            [] "" (Errorf "unexpected response code 401") _ eq_refl _ eq_refl).
  left. reflexivity.
Defined.

(** * Further properties of [pkg/registry.go] *)

(** ** [retrieve] *)

(** X1. With every error, [retrieve] returns the status -1 and no body, and the
    error is the one it was given: by the URL parser, in which case nothing
    was sent, or by the client or the reading of the body, after the one
    request. *)
Theorem retrieve_error p r method url auth t status body err t' :
  retrieve p r method url auth t = ((status, body, Some err), t') ->
  status = -1 /\ body = "" /\
  ((url_Parse p url = Some err /\ t' = t) \/
   (url_Parse p url = None /\ t' = t ++ [EvDo (mkRequest method url auth)] /\
    (Do (HttpClient r) (requests t) (mkRequest method url auth) = Err err \/
     exists res, Do (HttpClient r) (requests t) (mkRequest method url auth) = Ok res /\
                 Body res = Err err))).
Proof.
  rewrite retrieve_eq. destruct (url_Parse p url) as [e|].
  - intros [= <- <- <- <-]. repeat split; auto.
  - destruct (Do _ _ _) as [res|e] eqn:Hdo.
    + destruct (Body res) as [b|e] eqn:Hb; [discriminate|].
      intros [= <- <- <- <-]. repeat split; auto. right. repeat split; auto.
      right. exists res. auto.
    + intros [= <- <- <- <-]. repeat split; auto.
Qed.

Lemma retrieve_error_witness :
  (-1 = -1) /\ "" = "" /\
  ((url_Parse (demo_platform ∅) "u" = Some (NetError "connection refused") /\
    [EvDo (mkRequest MethodGet "u" "a")] = []) \/
   (url_Parse (demo_platform ∅) "u" = None /\
    [EvDo (mkRequest MethodGet "u" "a")] = [] ++ [EvDo (mkRequest MethodGet "u" "a")] /\
    (Do (HttpClient (demo_registry "REG" [])) (requests []) (mkRequest MethodGet "u" "a")
       = Err (NetError "connection refused") \/
     exists res, Do (HttpClient (demo_registry "REG" [])) (requests [])
                    (mkRequest MethodGet "u" "a") = Ok res /\
                 Body res = Err (NetError "connection refused")))).
Proof.
  exact (retrieve_error (demo_platform ∅) (demo_registry "REG" []) MethodGet "u" "a" []
           (-1) "" (NetError "connection refused") _ eq_refl).
Defined.

(** ** The requests of [IsTagExist] *)

(** [IsTagExist] goes on from the trace of its anonymous check. *)
Lemma IsTagExist_extends p r tag t :
  exists ext,
    snd (IsTagExist p r tag t) = snd (checkManifestForTag p r "" tag t) ++ ext.
Proof.
  destruct (checkManifestForTag p r "" tag t) as [[found [e|]] t1] eqn:H.
  - rewrite (IsTagExist_on_error _ _ _ _ _ _ _ H). simpl.
    destruct (sends_getBearerToken p r t1) as [e2 [E2 _]].
    destruct (getBearerToken p r t1) as [[bearer [err|]] t2]; simpl in E2; subst t2.
    + eexists. reflexivity.
    + destruct (sends_checkManifestForTag p r bearer tag
                  (t1 ++ EvGetenv (RegistryName r +:+ "_TOKEN") :: e2)) as [e3 [E3 _]].
      rewrite E3, <- app_assoc. eexists. reflexivity.
  - unfold IsTagExist, mbind, M_bind. rewrite H. simpl. exists []. now rewrite app_nil_r.
Qed.

(** X2. Every request of [IsTagExist] is a HEAD to the manifest URL of the tag or
    a GET to the exchange URL, and carries one header, [Authorization], with
    one value: empty or [Bearer token] with a non-empty token on the HEAD,
    [Basic token] on the GET. *)
Theorem IsTagExist_request_footprint p r tag t req :
  In req (sent_since t (snd (IsTagExist p r tag t))) ->
  (ReqMethod req = MethodHead /\ ReqURL req = manifest_url r tag /\
   (ReqHeader req = {[ "Authorization" := [""] ]} \/
    exists bearer, bearer <> "" /\
                   ReqHeader req = {[ "Authorization" := ["Bearer " +:+ bearer] ]})) \/
  (ReqMethod req = MethodGet /\ ReqURL req = exchange_url r /\
   exists auth, ReqHeader req = {[ "Authorization" := ["Basic " +:+ auth] ]}).
Proof.
  destruct (IsTagExist_sent p r tag t) as (s1 & s2 & s3 & E & A1 & A2 & A3 & _).
  rewrite E. intros Hin.
  apply in_app_or in Hin. destruct Hin as [Hin|Hin].
  { destruct A1 as [->| ->]; [destruct Hin|]. destruct Hin as [<-|[]].
    left. repeat split. now left. }
  apply in_app_or in Hin. destruct Hin as [Hin|Hin].
  - destruct A2 as [->|[auth ->]]; [destruct Hin|]. destruct Hin as [<-|[]].
    right. repeat split. exists auth. reflexivity.
  - destruct A3 as [->|[bearer [Hne ->]]]; [destruct Hin|]. destruct Hin as [<-|[]].
    left. repeat split. right. exists bearer. split; [exact Hne | reflexivity].
Qed.

Lemma IsTagExist_request_footprint_witness :
  (ReqMethod (manifest_request (demo_registry "REG" [status_only 200]) "v1" "") = MethodHead /\
   ReqURL (manifest_request (demo_registry "REG" [status_only 200]) "v1" "")
   = manifest_url (demo_registry "REG" [status_only 200]) "v1" /\
   (ReqHeader (manifest_request (demo_registry "REG" [status_only 200]) "v1" "")
    = {[ "Authorization" := [""] ]} \/
    exists bearer, bearer <> "" /\
      ReqHeader (manifest_request (demo_registry "REG" [status_only 200]) "v1" "")
      = {[ "Authorization" := ["Bearer " +:+ bearer] ]})) \/
  (ReqMethod (manifest_request (demo_registry "REG" [status_only 200]) "v1" "") = MethodGet /\
   ReqURL (manifest_request (demo_registry "REG" [status_only 200]) "v1" "")
   = exchange_url (demo_registry "REG" [status_only 200]) /\
   exists auth, ReqHeader (manifest_request (demo_registry "REG" [status_only 200]) "v1" "")
                = {[ "Authorization" := ["Basic " +:+ auth] ]}).
Proof.
  apply (IsTagExist_request_footprint (demo_platform ∅) (demo_registry "REG" [status_only 200])
           "v1" []).
  left. reflexivity.
Defined.

(** X3. When the manifest URL parses, the first request of [IsTagExist] is the
    anonymous HEAD, and it carries the [Authorization] header with the empty
    value: the header is sent, not left out. *)
Theorem IsTagExist_first_request p r tag t :
  url_Parse p (manifest_url r tag) = None ->
  exists rest,
    sent_since t (snd (IsTagExist p r tag t)) =
    {| ReqMethod := MethodHead; ReqURL := manifest_url r tag;
       ReqHeader := {[ "Authorization" := [""] ]} |} :: rest.
Proof.
  intros Hurl. destruct (IsTagExist_extends p r tag t) as [ext E].
  rewrite E, (checkManifestForTag_trace p r "" tag t), Hurl. simpl.
  rewrite <- app_assoc, sent_since_app. simpl. eexists. reflexivity.
Qed.

Lemma IsTagExist_first_request_witness :
  exists rest,
    sent_since [] (snd (IsTagExist (demo_platform {[ "REG_TOKEN" := "abc" ]})
                          (demo_registry "REG" [status_only 401; status_only 200]) "v1" [])) =
    {| ReqMethod := MethodHead; ReqURL := "https://reg.example/v2/org/app/manifests/v1";
       ReqHeader := {[ "Authorization" := [""] ]} |} :: rest.
Proof.
  exact (IsTagExist_first_request (demo_platform {[ "REG_TOKEN" := "abc" ]})
           (demo_registry "REG" [status_only 401; status_only 200]) "v1" [] eq_refl).
Defined.

(** ** Errors of the transport *)

(** X4. An error of the client, or of reading the body of the response, is
    returned as it is: by the manifest check with [false], whatever the
    status of the response was, and by the token exchange with no token. *)
Theorem transport_error_verbatim p r t err :
  (forall bearer tag,
     let req := manifest_request r tag
                  (if String.eqb bearer "" then "" else "Bearer " +:+ bearer) in
     url_Parse p (manifest_url r tag) = None ->
     Do (HttpClient r) (requests t) req = Err err \/
     (exists res, Do (HttpClient r) (requests t) req = Ok res /\ Body res = Err err) ->
     checkManifestForTag p r bearer tag t = ((false, Some err), t ++ [EvDo req])) /\
  (forall auth,
     url_Parse p (exchange_url r) = None ->
     Do (HttpClient r) (requests t) (exchange_request r auth) = Err err \/
     (exists res, Do (HttpClient r) (requests t) (exchange_request r auth) = Ok res /\
                  Body res = Err err) ->
     retrieveBearerToken p r auth t
       = (("", Some err), t ++ [EvDo (exchange_request r auth)])).
Proof.
  split.
  - intros bearer tag req Hurl H. rewrite checkManifestForTag_eq, retrieve_eq.
    change (manifestAPI (RegistryURL r) (ImagePath r) tag) with (manifest_url r tag).
    rewrite Hurl. fold (manifest_request r tag
      (if String.eqb bearer "" then "" else "Bearer " +:+ bearer)). fold req.
    destruct H as [->|[res [-> ->]]]; reflexivity.
  - intros auth Hurl H. rewrite retrieveBearerToken_eq, Hurl.
    destruct H as [->|[res [-> ->]]]; reflexivity.
Qed.

Lemma transport_error_verbatim_witness :
  checkManifestForTag (demo_platform ∅)
    (demo_registry "REG" [Ok {| StatusCode := 200; Body := Err (NetError "unexpected EOF") |}])
    "abc" "v1" []
  = ((false, Some (NetError "unexpected EOF")),
     [EvDo (manifest_request (demo_registry "REG" []) "v1" "Bearer abc")]).
Proof.
  refine (proj1 (transport_error_verbatim (demo_platform ∅)
    (demo_registry "REG" [Ok {| StatusCode := 200; Body := Err (NetError "unexpected EOF") |}])
    [] (NetError "unexpected EOF")) "abc" "v1" eq_refl _).
  right. eexists. split; reflexivity.
Defined.

(** ** Results that come with an error *)

(** X5. With every error the other result is the zero value: [false] from
    [IsTagExist] and the manifest check, the empty string from the four
    methods that return a token. *)
Theorem error_with_zero_value p r t e t' :
  (forall tag found, IsTagExist p r tag t = ((found, Some e), t') -> found = false) /\
  (forall bearer tag found,
     checkManifestForTag p r bearer tag t = ((found, Some e), t') -> found = false) /\
  (forall token, getBearerToken p r t = ((token, Some e), t') -> token = "") /\
  (forall token, getBearerTokenFromAuthToken p r t = ((token, Some e), t') -> token = "") /\
  (forall token, getAuthTokenFromCredentials p r t = ((token, Some e), t') -> token = "") /\
  (forall auth token, retrieveBearerToken p r auth t = ((token, Some e), t') -> token = "").
Proof.
  assert (Hcheck : forall bearer tag t found e t',
            checkManifestForTag p r bearer tag t = ((found, Some e), t') -> found = false).
  { intros bearer tag t0 found e0 t0'. rewrite checkManifestForTag_eq.
    destruct (retrieve _ _ _ _ _ _) as [[[status b] [err|]] t1]; [now intros [= <- _ _]|].
    destruct (status =? 200); [discriminate|].
    destruct (status =? 404); [discriminate | now intros [= <- _ _]]. }
  assert (Hexch : forall auth t token e t',
            retrieveBearerToken p r auth t = ((token, Some e), t') -> token = "").
  { intros auth t0 token e0 t0'. rewrite retrieveBearerToken_eq.
    destruct (url_Parse p (exchange_url r)); [now intros [= <- _ _]|].
    destruct (Do _ _ _) as [res|]; [|now intros [= <- _ _]].
    destruct (Body res) as [body|]; [|now intros [= <- _ _]].
    destruct (StatusCode res =? 200); [|now intros [= <- _ _]].
    destruct (Unmarshal_tokenResponse p body) as [tok [err|]];
      [now intros [= <- _ _] | discriminate]. }
  assert (Hauth : forall t token e t',
            getBearerTokenFromAuthToken p r t = ((token, Some e), t') -> token = "").
  { intros t0 token e0 t0'. rewrite getBearerTokenFromAuthToken_eq. cbv zeta.
    destruct (String.eqb _ ""); [|apply Hexch].
    destruct (_ || _); [now intros [= <- _ _] | apply Hexch]. }
  assert (Hget : forall t token e t',
            getBearerToken p r t = ((token, Some e), t') -> token = "").
  { intros t0 token e0 t0'. rewrite getBearerToken_eq. cbv zeta.
    destruct (String.eqb _ ""); [|discriminate].
    destruct (getBearerTokenFromAuthToken _ _ _) as [[tok [err|]] t2].
    - destruct (String.eqb (RegistryName r) "GHCR_IO"); [|now intros [= <- _ _]].
      destruct (String.eqb _ ""); [now intros [= <- _ _] | discriminate].
    - destruct (String.eqb tok ""); [now intros [= <- _ _] | discriminate]. }
  repeat split.
  - intros tag found.
    destruct (checkManifestForTag p r "" tag t) as [[found0 [e0|]] t1] eqn:H.
    + rewrite (IsTagExist_on_error _ _ _ _ _ _ _ H).
      destruct (getBearerToken p r t1) as [[bearer [err|]] t2]; [now intros [= <- _ _]|].
      apply Hcheck.
    + unfold IsTagExist, mbind, M_bind. rewrite H. discriminate.
  - intros bearer tag found. apply Hcheck.
  - intros token. apply Hget.
  - intros token. apply Hauth.
  - intros token. rewrite getAuthTokenFromCredentials_eq. cbv zeta.
    destruct (_ || _); [now intros [= <- _ _] | discriminate].
  - intros auth token. apply Hexch.
Qed.

(** ** What a result without error means *)

(** X6. When [IsTagExist] returns without error, the last call it made is a HEAD
    request to the manifest URL of the tag, and the registry answered it 200
    when the result is [true] and 404 when it is [false]. *)
Theorem IsTagExist_sound p r tag t found t' :
  IsTagExist p r tag t = ((found, None), t') ->
  exists t0 auth res,
    t' = t0 ++ [EvDo (manifest_request r tag auth)] /\
    Do (HttpClient r) (requests t0) (manifest_request r tag auth) = Ok res /\
    ((StatusCode res = 200 /\ found = true) \/ (StatusCode res = 404 /\ found = false)).
Proof.
  destruct (checkManifestForTag p r "" tag t) as [[found0 [e0|]] t1] eqn:H.
  - rewrite (IsTagExist_on_error _ _ _ _ _ _ _ H).
    destruct (getBearerToken p r t1) as [[bearer [err|]] t2]; [discriminate|].
    intros H2. destruct (checkManifestForTag_ok _ _ _ _ _ _ _ H2) as [Ht [res Hres]].
    exists t2, (if String.eqb bearer "" then "" else "Bearer " +:+ bearer), res. auto.
  - unfold IsTagExist, mbind, M_bind. rewrite H. intros [= <- <-].
    destruct (checkManifestForTag_ok _ _ _ _ _ _ _ H) as [Ht [res Hres]].
    exists t, "", res. auto.
Qed.

Lemma IsTagExist_sound_witness :
  exists t0 auth res,
    [EvDo (manifest_request (demo_registry "REG" []) "v1" ""); EvGetenv "REG_TOKEN";
     EvDo (manifest_request (demo_registry "REG" []) "v1" "Bearer abc")]
    = t0 ++ [EvDo (manifest_request (demo_registry "REG" [status_only 401; status_only 200])
                     "v1" auth)] /\
    Do (HttpClient (demo_registry "REG" [status_only 401; status_only 200])) (requests t0)
       (manifest_request (demo_registry "REG" [status_only 401; status_only 200]) "v1" auth)
    = Ok res /\
    ((StatusCode res = 200 /\ true = true) \/ (StatusCode res = 404 /\ true = false)).
Proof.
  exact (IsTagExist_sound (demo_platform {[ "REG_TOKEN" := "abc" ]})
           (demo_registry "REG" [status_only 401; status_only 200]) "v1" [] true _ eq_refl).
Defined.

(** ** Missing credentials *)

(** X7. When the anonymous check has failed and the environment supplies no
    bearer token, no auth token and not both a user and a password, and the
    registry is not [GHCR_IO] or [GITHUB_TOKEN] supplies nothing, [IsTagExist]
    returns [false] with the error that names the registry, and sends nothing
    after the anonymous check. *)
Theorem IsTagExist_no_credentials p r tag t found e t1 :
  let name := RegistryName r in
  checkManifestForTag p r "" tag t = ((found, Some e), t1) ->
  supplies_nothing p (name +:+ "_TOKEN") ->
  supplies_nothing p (name +:+ "_AUTH") ->
  supplies_nothing p (name +:+ "_USER") \/ supplies_nothing p (name +:+ "_PASSWORD") ->
  name <> "GHCR_IO" \/ supplies_nothing p "GITHUB_TOKEN" ->
  fst (IsTagExist p r tag t)
    = (false, Some (Errorf ("could not get credentials for " +:+ name))) /\
  sent_since t1 (snd (IsTagExist p r tag t)) = [].
Proof.
  intros name H Htok Hauth Hup Hgh.
  apply Getenv_supplies_nothing in Htok, Hauth.
  assert (Hup' : String.eqb (default "" (Environ p !! (name +:+ "_USER"))) ""
                 || String.eqb (default "" (Environ p !! (name +:+ "_PASSWORD"))) "" = true).
  { apply orb_empty_true. destruct Hup as [Hu|Hu]; apply Getenv_supplies_nothing in Hu; auto. }
  rewrite (IsTagExist_on_error _ _ _ _ _ _ _ H), getBearerToken_eq. cbv zeta. fold name.
  rewrite Htok, getBearerTokenFromAuthToken_eq. cbv zeta. fold name.
  rewrite Hauth, Hup'. simpl.
  destruct Hgh as [Hn|Hg].
  - apply String.eqb_neq in Hn. rewrite Hn. simpl. split; [reflexivity|].
    rewrite <- app_assoc. apply sent_since_app.
  - apply Getenv_supplies_nothing in Hg. rewrite Hg.
    destruct (String.eqb name "GHCR_IO"); simpl; (split; [reflexivity|]);
      rewrite <- ?app_assoc; apply sent_since_app.
Qed.

Lemma IsTagExist_no_credentials_witness :
  fst (IsTagExist (demo_platform {[ "REG_USER" := "u" ]})
         (demo_registry "REG" [status_only 401; status_only 200]) "v1" [])
  = (false, Some (Errorf "could not get credentials for REG")).
Proof.
  refine (proj1 (IsTagExist_no_credentials (demo_platform {[ "REG_USER" := "u" ]})
            (demo_registry "REG" [status_only 401; status_only 200]) "v1" []
            false (Errorf "unexpected response registry API: 401") _ eq_refl _ _ _ _)).
  - left. reflexivity.
  - left. reflexivity.
  - right. left. reflexivity.
  - left. discriminate.
Defined.

(** ** [GITHUB_TOKEN] without any credentials *)

(** X8. For the registry named [GHCR_IO], the fallback also covers missing
    credentials: when [GHCR_IO_TOKEN] and [GHCR_IO_AUTH] supply nothing and
    the user or the password is missing, a non-empty [GITHUB_TOKEN] gives the
    bearer token, its base64 encoding, and no request is sent. *)
Theorem getBearerToken_github_token_alone p r t github_token :
  RegistryName r = "GHCR_IO" ->
  supplies_nothing p "GHCR_IO_TOKEN" ->
  supplies_nothing p "GHCR_IO_AUTH" ->
  supplies_nothing p "GHCR_IO_USER" \/ supplies_nothing p "GHCR_IO_PASSWORD" ->
  supplies p "GITHUB_TOKEN" github_token ->
  getBearerToken p r t
  = ((base64.EncodeToString github_token, None),
     t ++ [EvGetenv "GHCR_IO_TOKEN"; EvGetenv "GHCR_IO_AUTH"; EvGetenv "GHCR_IO_USER";
           EvGetenv "GHCR_IO_PASSWORD"; EvGetenv "GITHUB_TOKEN"]).
Proof.
  intros Hname Htok Hauth Hup Hgh.
  apply Getenv_supplies_nothing in Htok, Hauth.
  assert (Hup' : String.eqb (default "" (Environ p !! "GHCR_IO_USER")) ""
                 || String.eqb (default "" (Environ p !! "GHCR_IO_PASSWORD")) "" = true).
  { apply orb_empty_true. destruct Hup as [Hu|Hu]; apply Getenv_supplies_nothing in Hu; auto. }
  change "GHCR_IO_TOKEN" with ("GHCR_IO" +:+ "_TOKEN") in Htok.
  change "GHCR_IO_AUTH" with ("GHCR_IO" +:+ "_AUTH") in Hauth.
  change "GHCR_IO_USER" with ("GHCR_IO" +:+ "_USER") in Hup'.
  change "GHCR_IO_PASSWORD" with ("GHCR_IO" +:+ "_PASSWORD") in Hup'.
  rewrite getBearerToken_eq, getBearerTokenFromAuthToken_eq. cbv zeta.
  rewrite Hname, Htok, Hauth, Hup'. simpl.
  rewrite (Getenv_supplies _ _ _ Hgh), eqb_empty_false by apply Hgh.
  now rewrite <- !app_assoc.
Qed.

Lemma getBearerToken_github_token_alone_witness :
  getBearerToken (demo_platform {[ "GITHUB_TOKEN" := "xyz" ]}) (demo_registry "GHCR_IO" []) []
  = (("eHl6", None),
     [EvGetenv "GHCR_IO_TOKEN"; EvGetenv "GHCR_IO_AUTH"; EvGetenv "GHCR_IO_USER";
      EvGetenv "GHCR_IO_PASSWORD"; EvGetenv "GITHUB_TOKEN"]).
Proof.
  refine (getBearerToken_github_token_alone (demo_platform {[ "GITHUB_TOKEN" := "xyz" ]})
            (demo_registry "GHCR_IO" []) [] "xyz" eq_refl _ _ _ _).
  - left. reflexivity.
  - left. reflexivity.
  - left. left. reflexivity.
  - split; [reflexivity | discriminate].
Defined.

(** ** The auth token of the credentials *)

(** X9. When [getAuthTokenFromCredentials] returns without error, the user and
    the password are both set to non-empty values and the token is the base64
    encoding of [user:pass], which is never empty: the check for an empty
    token in [getBearerTokenFromAuthToken] cannot fail. *)
Theorem getAuthTokenFromCredentials_ok p r t token t' :
  getAuthTokenFromCredentials p r t = ((token, None), t') ->
  token <> "" /\
  exists user pass,
    supplies p (RegistryName r +:+ "_USER") user /\
    supplies p (RegistryName r +:+ "_PASSWORD") pass /\
    token = base64.EncodeToString (user +:+ ":" +:+ pass).
Proof.
  rewrite getAuthTokenFromCredentials_eq. cbv zeta.
  destruct (String.eqb_spec (default "" (Environ p !! (RegistryName r +:+ "_USER"))) "")
    as [|Hu]; [discriminate|].
  destruct (String.eqb_spec (default "" (Environ p !! (RegistryName r +:+ "_PASSWORD"))) "")
    as [|Hp]; [discriminate|].
  simpl. intros [= <- _]. split.
  - intros Hb. apply EncodeToString_empty, append_empty in Hb. destruct Hb as [_ Hb].
    discriminate.
  - unfold supplies.
    destruct (Environ p !! (RegistryName r +:+ "_USER")) as [user|]; [|now destruct Hu].
    destruct (Environ p !! (RegistryName r +:+ "_PASSWORD")) as [pass|]; [|now destruct Hp].
    exists user, pass. simpl in *. auto.
Qed.

Lemma getAuthTokenFromCredentials_ok_witness :
  "dTpw" <> "" /\
  exists user pass,
    supplies (demo_platform {[ "REG_USER" := "u"; "REG_PASSWORD" := "p" ]}) "REG_USER" user /\
    supplies (demo_platform {[ "REG_USER" := "u"; "REG_PASSWORD" := "p" ]})
      "REG_PASSWORD" pass /\
    "dTpw" = base64.EncodeToString (user +:+ ":" +:+ pass).
Proof.
  exact (getAuthTokenFromCredentials_ok
           (demo_platform {[ "REG_USER" := "u"; "REG_PASSWORD" := "p" ]})
           (demo_registry "REG" []) [] "dTpw" _ eq_refl).
Defined.

(** ** An unusable manifest URL *)

(** X10. When the manifest URL of the tag does not parse, [IsTagExist] sends no
    HEAD request and always returns [false] with an error.  It still acquires
    a bearer token after the failed anonymous check, and when that succeeds
    the error returned is the one of the URL. *)
Theorem IsTagExist_unparsable_url p r tag t e :
  url_Parse p (manifest_url r tag) = Some e ->
  (exists err, fst (IsTagExist p r tag t) = (false, Some err)) /\
  List.filter is_head (sent_since t (snd (IsTagExist p r tag t))) = [] /\
  (forall bearer t2,
     getBearerToken p r t = ((bearer, None), t2) ->
     IsTagExist p r tag t = ((false, Some e), t2)).
Proof.
  intros Hurl.
  assert (Hcheck : forall bearer t0,
            checkManifestForTag p r bearer tag t0 = ((false, Some e), t0)).
  { intros bearer t0. rewrite checkManifestForTag_eq, retrieve_eq.
    change (manifestAPI (RegistryURL r) (ImagePath r) tag) with (manifest_url r tag).
    now rewrite Hurl. }
  rewrite (IsTagExist_on_error _ _ _ _ _ _ _ (Hcheck "" t)).
  destruct (sends_getBearerToken p r t) as [ext [E A]].
  destruct (getBearerToken p r t) as [[bearer [err|]] t2]; simpl in E; subst t2.
  - split; [eexists; reflexivity|]. split; [|discriminate]. simpl.
    change (t ++ EvGetenv (RegistryName r +:+ "_TOKEN") :: ext)
      with (t ++ ([EvGetenv (RegistryName r +:+ "_TOKEN")] ++ ext)).
    rewrite sent_since_app. simpl. destruct A as [->|[auth ->]]; reflexivity.
  - rewrite Hcheck. split; [eexists; reflexivity|]. split.
    + simpl. change (t ++ EvGetenv (RegistryName r +:+ "_TOKEN") :: ext)
        with (t ++ ([EvGetenv (RegistryName r +:+ "_TOKEN")] ++ ext)).
      rewrite sent_since_app. simpl. destruct A as [->|[auth ->]]; reflexivity.
    + intros bearer0 t2 [= <- <-]. reflexivity.
Qed.

Lemma IsTagExist_unparsable_url_witness :
  IsTagExist {| Environ := {[ "REG_AUTH" := "dTpw" ]};
                url_Parse := fun url =>
                  if String.eqb url "https://reg.example/v2/org/app/manifests/%"
                  then Some (NetError "invalid URL escape") else None;
                Unmarshal_tokenResponse := demo_Unmarshal |}
    (demo_registry "REG" [with_body 200 "tok"]) "%" []
  = ((false, Some (NetError "invalid URL escape")),
     [EvGetenv "REG_TOKEN"; EvGetenv "REG_AUTH";
      EvDo (exchange_request (demo_registry "REG" []) "dTpw")]).
Proof.
  exact (proj2 (proj2 (IsTagExist_unparsable_url
           {| Environ := {[ "REG_AUTH" := "dTpw" ]};
              url_Parse := fun url =>
                if String.eqb url "https://reg.example/v2/org/app/manifests/%"
                then Some (NetError "invalid URL escape") else None;
              Unmarshal_tokenResponse := demo_Unmarshal |}
           (demo_registry "REG" [with_body 200 "tok"]) "%" []
           (NetError "invalid URL escape") eq_refl)) "tok" _ eq_refl).
Defined.

(** ** The environment variables that are read *)

Lemma getenvs_app (t1 t2 : Trace) : getenvs (t1 ++ t2) = getenvs t1 ++ getenvs t2.
Proof.
  induction t1 as [|[key|req] t1 IH]; simpl; [reflexivity | now rewrite IH | exact IH].
Qed.

Lemma read_since_app (t ext : Trace) : read_since t (t ++ ext) = getenvs ext.
Proof. unfold read_since. rewrite getenvs_app. apply drop_app_length. Qed.

Lemma checkManifestForTag_reads p r bearer tag t :
  exists ext, snd (checkManifestForTag p r bearer tag t) = t ++ ext /\ getenvs ext = [].
Proof.
  rewrite (checkManifestForTag_trace p r bearer tag t). cbv zeta.
  destruct (url_Parse p (manifest_url r tag)).
  - exists []. split; [now rewrite app_nil_r | reflexivity].
  - eexists. split; reflexivity.
Qed.

Lemma retrieveBearerToken_reads p r auth t :
  exists ext, snd (retrieveBearerToken p r auth t) = t ++ ext /\ getenvs ext = [].
Proof.
  rewrite retrieveBearerToken_eq. destruct (url_Parse p (exchange_url r)).
  - exists []. split; [now rewrite app_nil_r | reflexivity].
  - eexists. split; reflexivity.
Qed.

Lemma getBearerTokenFromAuthToken_reads p r t :
  let name := RegistryName r in
  exists ext,
    snd (getBearerTokenFromAuthToken p r t) = t ++ ext /\
    (getenvs ext = [name +:+ "_AUTH"] \/
     getenvs ext = [name +:+ "_AUTH"; name +:+ "_USER"; name +:+ "_PASSWORD"]).
Proof.
  intros name. rewrite getBearerTokenFromAuthToken_eq. cbv zeta. fold name.
  destruct (String.eqb _ "").
  - destruct (_ || _).
    + eexists. split; [reflexivity|]. now right.
    + match goal with |- context [retrieveBearerToken p r ?a ?t0] =>
        destruct (retrieveBearerToken_reads p r a t0) as [ext [E G]] end.
      rewrite E, <- app_assoc. eexists. split; [reflexivity|].
      rewrite getenvs_app, G. now right.
  - match goal with |- context [retrieveBearerToken p r ?a ?t0] =>
      destruct (retrieveBearerToken_reads p r a t0) as [ext [E G]] end.
    rewrite E, <- app_assoc. eexists. split; [reflexivity|].
    rewrite getenvs_app, G. now left.
Qed.

Lemma getBearerToken_reads p r t :
  let name := RegistryName r in
  exists ext ks gs,
    snd (getBearerToken p r t) = t ++ ext /\ getenvs ext = ks ++ gs /\
    (ks = [name +:+ "_TOKEN"] \/
     ks = [name +:+ "_TOKEN"; name +:+ "_AUTH"] \/
     ks = [name +:+ "_TOKEN"; name +:+ "_AUTH"; name +:+ "_USER"; name +:+ "_PASSWORD"]) /\
    (gs = [] \/ (name = "GHCR_IO" /\ gs = ["GITHUB_TOKEN"])).
Proof.
  intros name. rewrite getBearerToken_eq. cbv zeta. fold name.
  destruct (String.eqb _ "").
  2:{ exists [EvGetenv (name +:+ "_TOKEN")], [name +:+ "_TOKEN"], []. simpl. auto. }
  destruct (getBearerTokenFromAuthToken_reads p r (t ++ [EvGetenv (name +:+ "_TOKEN")]))
    as [ext [E G]]. fold name in E, G.
  assert (K : forall gs, getenvs ([EvGetenv (name +:+ "_TOKEN")] ++ ext) ++ gs
                         = ((name +:+ "_TOKEN") :: getenvs ext) ++ gs /\
     ((name +:+ "_TOKEN") :: getenvs ext = [name +:+ "_TOKEN"] \/
      (name +:+ "_TOKEN") :: getenvs ext = [name +:+ "_TOKEN"; name +:+ "_AUTH"] \/
      (name +:+ "_TOKEN") :: getenvs ext
        = [name +:+ "_TOKEN"; name +:+ "_AUTH"; name +:+ "_USER"; name +:+ "_PASSWORD"])).
  { intros gs. split; [reflexivity|]. destruct G as [-> | ->]; auto. }
  destruct (getBearerTokenFromAuthToken p r _) as [[bearerToken [err|]] t2];
    simpl in E; subst t2.
  - destruct (String.eqb_spec name "GHCR_IO") as [Hn|Hn].
    + exists (([EvGetenv (name +:+ "_TOKEN")] ++ ext) ++ [EvGetenv "GITHUB_TOKEN"]),
        ((name +:+ "_TOKEN") :: getenvs ext), ["GITHUB_TOKEN"].
      split; [destruct (String.eqb _ ""); simpl; now rewrite <- !app_assoc|].
      rewrite getenvs_app. split; [apply K|]. split; [apply (K [])|]. now right.
    + exists ([EvGetenv (name +:+ "_TOKEN")] ++ ext), ((name +:+ "_TOKEN") :: getenvs ext), [].
      split; [simpl; now rewrite <- app_assoc|]. rewrite app_nil_r.
      split; [reflexivity|]. split; [apply (K [])|]. now left.
  - exists ([EvGetenv (name +:+ "_TOKEN")] ++ ext), ((name +:+ "_TOKEN") :: getenvs ext), [].
    split; [destruct (String.eqb bearerToken ""); simpl; now rewrite <- app_assoc|].
    rewrite app_nil_r. split; [reflexivity|]. split; [apply (K [])|]. now left.
Qed.

(** X11. [IsTagExist] reads no environment variable other than
    [{REGISTRY_NAME}_TOKEN], [_AUTH], [_USER], [_PASSWORD] and
    [GITHUB_TOKEN], in this order, each at most once; it reads the user and
    the password together or not at all, and [GITHUB_TOKEN] only for the
    registry named [GHCR_IO]. *)
Theorem IsTagExist_environment_reads p r tag t :
  let name := RegistryName r in
  exists ks gs,
    read_since t (snd (IsTagExist p r tag t)) = ks ++ gs /\
    (ks = [] \/
     ks = [name +:+ "_TOKEN"] \/
     ks = [name +:+ "_TOKEN"; name +:+ "_AUTH"] \/
     ks = [name +:+ "_TOKEN"; name +:+ "_AUTH"; name +:+ "_USER"; name +:+ "_PASSWORD"]) /\
    (gs = [] \/ (name = "GHCR_IO" /\ gs = ["GITHUB_TOKEN"])).
Proof.
  intros name.
  destruct (checkManifestForTag_reads p r "" tag t) as [e1 [E1 G1]].
  destruct (checkManifestForTag p r "" tag t) as [[found [e|]] t1] eqn:H;
    simpl in E1; subst t1.
  - rewrite (IsTagExist_on_error _ _ _ _ _ _ _ H).
    destruct (getBearerToken_reads p r (t ++ e1)) as (e2 & ks & gs & E2 & G2 & Hks & Hgs).
    fold name in Hks, Hgs. exists ks, gs.
    destruct (getBearerToken p r (t ++ e1)) as [[bearer [err|]] t2]; simpl in E2; subst t2.
    + simpl. rewrite <- app_assoc, read_since_app, getenvs_app, G1, G2. simpl. auto 6.
    + destruct (checkManifestForTag_reads p r bearer tag ((t ++ e1) ++ e2)) as [e3 [E3 G3]].
      rewrite E3, <- !app_assoc, read_since_app, !getenvs_app, G1, G2, G3. simpl.
      rewrite app_nil_r. auto 6.
  - unfold IsTagExist, mbind, M_bind. rewrite H. simpl.
    exists [], []. rewrite read_since_app, G1. auto.
Qed.

Example IsTagExist_reads_all_five :
  read_since [] (snd (IsTagExist (demo_platform ∅)
                        (demo_registry "GHCR_IO" [status_only 401]) "v1" []))
  = ["GHCR_IO_TOKEN"; "GHCR_IO_AUTH"; "GHCR_IO_USER"; "GHCR_IO_PASSWORD"; "GITHUB_TOKEN"].
Proof. reflexivity. Qed.

(** ** The environment that matters *)

(** X12. [IsTagExist] gives the same result and makes the same calls in two
    environments in which [os.Getenv] returns the same for
    [{REGISTRY_NAME}_TOKEN], [_AUTH], [_USER] and [_PASSWORD], and, for the
    registry named [GHCR_IO], for [GITHUB_TOKEN]. *)
Theorem IsTagExist_environment_frame p env1 env2 r tag t :
  let name := RegistryName r in
  (forall k, In k [name +:+ "_TOKEN"; name +:+ "_AUTH"; name +:+ "_USER";
                   name +:+ "_PASSWORD"] ->
             default "" (env1 !! k) = default "" (env2 !! k)) ->
  (name = "GHCR_IO" ->
   default "" (env1 !! "GITHUB_TOKEN") = default "" (env2 !! "GITHUB_TOKEN")) ->
  IsTagExist (with_Environ p env1) r tag t = IsTagExist (with_Environ p env2) r tag t.
Proof.
  intros name Hk Hg.
  assert (HT := Hk (name +:+ "_TOKEN") ltac:(simpl; auto)).
  assert (HA := Hk (name +:+ "_AUTH") ltac:(simpl; auto)).
  assert (HU := Hk (name +:+ "_USER") ltac:(simpl; auto)).
  assert (HP := Hk (name +:+ "_PASSWORD") ltac:(simpl; auto 6)).
  assert (Hauth : forall t0, getBearerTokenFromAuthToken (with_Environ p env1) r t0
                             = getBearerTokenFromAuthToken (with_Environ p env2) r t0).
  { intros t0. rewrite !getBearerTokenFromAuthToken_eq. simpl. fold name.
    now rewrite HA, HU, HP. }
  assert (Hget : forall t0, getBearerToken (with_Environ p env1) r t0
                            = getBearerToken (with_Environ p env2) r t0).
  { intros t0. rewrite !getBearerToken_eq. simpl. fold name. rewrite HT, Hauth.
    destruct (String.eqb_spec name "GHCR_IO") as [Hn|Hn]; [now rewrite (Hg Hn)|reflexivity]. }
  unfold IsTagExist, mbind, M_bind.
  change (checkManifestForTag (with_Environ p env1) r "" tag t)
    with (checkManifestForTag (with_Environ p env2) r "" tag t).
  destruct (checkManifestForTag (with_Environ p env2) r "" tag t) as [[found [e|]] t1];
    [|reflexivity].
  rewrite Hget.
  destruct (getBearerToken (with_Environ p env2) r t1) as [[bearerToken [err|]] t2];
    reflexivity.
Qed.

Lemma IsTagExist_environment_frame_witness :
  IsTagExist (with_Environ (demo_platform ∅) {[ "REG_TOKEN" := "abc"; "GITHUB_TOKEN" := "xyz" ]})
    (demo_registry "REG" [status_only 401; status_only 200]) "v1" []
  = IsTagExist (with_Environ (demo_platform ∅) {[ "REG_TOKEN" := "abc"; "HOME" := "/root" ]})
      (demo_registry "REG" [status_only 401; status_only 200]) "v1" [].
Proof.
  refine (IsTagExist_environment_frame (demo_platform ∅)
            {[ "REG_TOKEN" := "abc"; "GITHUB_TOKEN" := "xyz" ]}
            {[ "REG_TOKEN" := "abc"; "HOME" := "/root" ]}
            (demo_registry "REG" [status_only 401; status_only 200]) "v1" [] _ _).
  - intros k Hk. simpl in Hk.
    destruct Hk as [<-|[<-|[<-|[<-|[]]]]]; reflexivity.
  - discriminate.
Defined.
